(** * The lettuce simulation engine ([lettuce/simulation.py])

    A shallow embedding of the class [Simulation]: its constructor, [step],
    [initialize], [save_checkpoint] and [load_checkpoint]; and of its callers
    [main] and [benchmark] of the command line ([lettuce/cli.py]).

    - Arrays and tensors are a shape together with an indexing function; the
      torch and numpy operations the engine calls ([torch.where], [|], [-],
      [torch.abs], [torch.max], [numel]) are written out with their
      broadcasting rule and with the errors they raise.
    - The objects handed to the engine (flow, lattice, collision, streaming,
      boundaries, reporters) are records of functions; every call the engine
      makes to one of them is recorded in a call log.
    - Methods run in a state-and-exception monad in which, as in Python, an
      exception leaves the state reached so far in place. *)

From Stdlib Require Import ZArith QArith.
From stdpp Require Import base list strings gmap pretty.

Close Scope Q_scope.
Open Scope general_if_scope.

(** ** Tensors *)

Module Tensor.

Record tensor (A : Type) : Type := Tensor { shape : list nat; item : list nat -> A }.
Arguments Tensor {A} _ _.
Arguments shape {A} _.
Arguments item {A} _ _.

(** [t.numel()]: the product of the dimensions. *)
Definition numel_of (s : list nat) : nat := foldr Nat.mul 1 s.
Definition numel {A} (t : tensor A) : nat := numel_of (shape t).

(** A multi-index addresses an element of a tensor of shape [s]. *)
Definition in_range (ix s : list nat) : Prop := Forall2 lt ix s.

(** All multi-indices of a shape, in row-major order. *)
Fixpoint indices (s : list nat) : list (list nat) :=
  match s with
  | [] => [[]]
  | d :: s' => k ← seq 0 d; (cons k) <$> indices s'
  end.

(** Two tensors agree: same shape, same element at every index in range. *)
Definition same {A} (t1 t2 : tensor A) : Prop :=
  shape t1 = shape t2 /\ forall ix, in_range ix (shape t1) -> item t1 ix = item t2 ix.

(** A python scalar, or a 0-dimensional tensor. *)
Definition scalar {A} (a : A) : tensor A := Tensor [] (fun _ => a).

(** [np.zeros_like(a, dtype=bool)]. *)
Definition zeros_like_bool {A} (a : tensor A) : tensor bool :=
  Tensor (shape a) (fun _ => false).

Definition tmap {A B} (g : A -> B) (t : tensor A) : tensor B :=
  Tensor (shape t) (fun ix => g (item t ix)).

(** *** Broadcasting

    Shapes are aligned at their last dimension; two dimensions are compatible
    when they are equal or one of them is 1. *)
Definition bcast_dim (a b : nat) : option nat :=
  if Nat.eqb a b then Some a
  else if Nat.eqb a 1 then Some b
  else if Nat.eqb b 1 then Some a
  else None.

Fixpoint bcast_rev (s1 s2 : list nat) : option (list nat) :=
  match s1, s2 with
  | [], s => Some s
  | s, [] => Some s
  | a :: s1', b :: s2' =>
      match bcast_dim a b, bcast_rev s1' s2' with
      | Some d, Some r => Some (d :: r)
      | _, _ => None
      end
  end.

Definition broadcast_shapes (s1 s2 : list nat) : option (list nat) :=
  match bcast_rev (rev s1) (rev s2) with
  | Some r => Some (rev r)
  | None => None
  end.

(** The index at which an operand of shape [s] is read for the index [ix] of
    the broadcast result: leading dimensions the operand lacks are dropped and
    dimensions of size 1 are read at 0. *)
Definition bcast_index (s ix : list nat) : list nat :=
  zip_with (fun d k => if Nat.eqb d 1 then 0 else k) s (drop (length ix - length s) ix).

Definition bcast_item {A} (t : tensor A) (ix : list nat) : A :=
  item t (bcast_index (shape t) ix).

End Tensor.
Export Tensor.

(** ** Exceptions *)

Inductive exn : Type :=
| LettuceException (msg : string)
| AssertionError (arg : exn)
| IndexError (msg : string)
| AttributeError (msg : string)
| RuntimeError (msg : string)
| ZeroDivisionError (msg : string)
| UnboundLocalError (msg : string)
| FileNotFoundError (filename : string)
| UnpicklingError (msg : string).

(** What a call that may raise comes back with. *)
Inductive outcome (A : Type) : Type :=
| Returned (a : A)
| Raised (e : exn).
Arguments Returned {A} _.
Arguments Raised {A} _.

#[global] Instance outcome_ret : MRet outcome := fun A a => Returned a.
#[global] Instance outcome_bind : MBind outcome := fun A B k o =>
  match o with
  | Returned a => k a
  | Raised e => Raised e
  end.

(** [assert cond, exc]: an [AssertionError] whose argument is [exc]
    (assertions are enabled, the interpreter's default). *)
Definition assert (cond : bool) (exc : exn) : outcome unit :=
  if cond then Returned tt else Raised (AssertionError exc).

(** [l[k]] on a python sequence. *)
Definition getitem {A} (l : list A) (k : nat) : outcome A :=
  match l !! k with
  | Some a => Returned a
  | None => Raised (IndexError "list index out of range")
  end.

(** [repr] of a list of ints, as an f-string prints a shape: [[1, 32, 32]]. *)
Definition repr_list (l : list nat) : string :=
  "[" +:+ String.concat ", " (pretty <$> l) +:+ "]".

(** ** Numbers held by tensors

    The element type of the fields (a float dtype) with the arithmetic that
    [initialize] performs on it. *)
Class Num (V : Type) : Type := {
  vzero : V;
  vsub : V -> V -> V;
  vabs : V -> V;
  vmax : V -> V -> V;
  vlt : V -> V -> bool
}.

(** ** The torch operations of the engine *)

Definition shape_error : exn :=
  RuntimeError "The size of tensor a must match the size of tensor b".

Definition broadcast2 {A B C} (op : A -> B -> C) (a : tensor A) (b : tensor B)
  : outcome (tensor C) :=
  match broadcast_shapes (shape a) (shape b) with
  | Some s => Returned (Tensor s (fun ix => op (bcast_item a ix) (bcast_item b ix)))
  | None => Raised shape_error
  end.

(** [a | b] on boolean tensors. *)
Definition torch_or : tensor bool -> tensor bool -> outcome (tensor bool) :=
  broadcast2 orb.

(** [torch.where(condition, x, y)]. *)
Definition torch_where {A} (condition : tensor bool) (x y : tensor A)
  : outcome (tensor A) :=
  match broadcast_shapes (shape condition) (shape x) with
  | Some s1 =>
      match broadcast_shapes s1 (shape y) with
      | Some s =>
          Returned (Tensor s (fun ix =>
            if bcast_item condition ix then bcast_item x ix else bcast_item y ix))
      | None => Raised shape_error
      end
  | None => Raised shape_error
  end.

Section TorchNum.
Context {V : Type} `{!Num V}.

(** [a - b]. *)
Definition torch_sub : tensor V -> tensor V -> outcome (tensor V) :=
  broadcast2 vsub.

(** [torch.abs(t)]. *)
Definition torch_abs : tensor V -> tensor V := tmap vabs.

(** [torch.max(t)]: the largest element; an error on an empty tensor. *)
Definition torch_max (t : tensor V) : outcome V :=
  match item t <$> indices (shape t) with
  | [] => Raised (RuntimeError "max(): Expected reduction dim to be specified for input.numel() == 0")
  | v :: vs => Returned (foldl vmax v vs)
  end.
End TorchNum.

(** The one law of the numbers that the statements about [initialize] use:
    the larger of two numbers is below a bound exactly when both are. Floats
    obey it, a NaN being below nothing and the larger of anything and a
    NaN. *)
Class NumLaws (V : Type) `{!Num V} : Prop := {
  vlt_vmax : forall a b t : V, vlt (vmax a b) t = vlt a t && vlt b t
}.

(** ** The objects the engine is built from *)

Section Engine.
Context {V : Type} `{!Num V}.
(** Reporters are opaque callables; [Transform] is what
    [get_default_moment_transform] returns; [Blob] is a pickled object. *)
Context {Reporter Transform Blob : Type}.

(** [flow.units] *)
Record Units : Type := {
  convert_velocity_to_lu : tensor V -> tensor V;
  convert_pressure_pu_to_density_lu : tensor V -> tensor V;
  convert_density_lu_to_pressure_pu : tensor V -> tensor V
}.

(** A boundary condition: a callable on fields; its class name is what the
    constructor inspects, and [mask] is the attribute it reads (absent on
    boundaries that have none). *)
Record Boundary : Type := {
  class_name : string;
  mask : option (tensor bool);
  boundary_call : tensor V -> tensor V
}.

Record Flow : Type := {
  grid : list (tensor V);
  initial_solution : list (tensor V) -> tensor V * tensor V;
  units : Units;
  boundaries : list Boundary
}.

(** [convert_to_tensor] is one method in the source; it is listed once per
    element type it is called at. *)
Record Lattice : Type := {
  D : nat;
  convert_to_tensor : tensor V -> tensor V;
  convert_to_tensor_bool : tensor bool -> tensor bool;
  equilibrium : tensor V -> tensor V -> tensor V;
  rho : tensor V -> tensor V
}.

(** What [simulation.py] imports from the package [lettuce] and from
    [pickle]. *)
Class Lettuce : Type := {
  get_default_moment_transform : Lattice -> Transform;
  BGKInitialization : Lattice -> Flow -> Transform -> tensor V -> tensor V;
  pickle_dumps : tensor V -> Blob;
  pickle_loads : Blob -> outcome (tensor V)
}.
Context `{!Lettuce}.

(** ** The engine's state *)

Record Simulation : Type := {
  flow : Flow;
  lattice : Lattice;
  collision : tensor V -> tensor V;
  streaming : tensor V -> tensor V;
  i : Z;
  f : tensor V;
  reporters : list Reporter;
  no_collision_mask : tensor bool
}.

(** [boundary.mask] *)
Definition getattr_mask (boundary : Boundary) : outcome (tensor bool) :=
  match mask boundary with
  | Some m => Returned m
  | None => Raised (AttributeError "object has no attribute 'mask'")
  end.

(** The loop over [self.flow.boundaries] that builds the mask. *)
Fixpoint mask_loop (bs : list Boundary) (no_collision_mask : tensor bool)
  : outcome (tensor bool) :=
  match bs with
  | [] => Returned no_collision_mask
  | boundary :: bs' =>
      if String.eqb (class_name boundary) "BounceBackBoundary" then
        m ← getattr_mask boundary;
        acc ← torch_or m no_collision_mask;
        mask_loop bs' acc
      else mask_loop bs' no_collision_mask
  end.

Definition wrong_pressure (expected actual : list nat) : exn :=
  LettuceException ("Wrong dimension of initial pressure field. "
    +:+ "Expected " +:+ repr_list expected +:+ ", "
    +:+ "but got " +:+ repr_list actual +:+ ".").

Definition wrong_velocity (expected actual : list nat) : exn :=
  LettuceException ("Wrong dimension of initial velocity field."
    +:+ "Expected " +:+ repr_list expected +:+ ", "
    +:+ "but got " +:+ repr_list actual +:+ ".").

(** [Simulation.__init__]: either the constructed engine or the exception
    that left the constructor, in which case there is no object. *)
Definition Simulation__init__ (flow : Flow) (lattice : Lattice)
    (collision streaming : tensor V -> tensor V) : outcome Simulation :=
  let '(p, u) := initial_solution flow (grid flow) in
  g0 ← getitem (grid flow) 0;
  assert (bool_decide (shape p = [1] ++ shape g0))
         (wrong_pressure ([1] ++ shape g0) (shape p));;
  assert (bool_decide (shape u = [D lattice] ++ shape g0))
         (wrong_velocity ([D lattice] ++ shape g0) (shape u));;
  let u := convert_to_tensor lattice (convert_velocity_to_lu (units flow) u) in
  let rho := convert_to_tensor lattice (convert_pressure_pu_to_density_lu (units flow) p) in
  let f := equilibrium lattice rho (convert_to_tensor lattice u) in
  let x := grid flow in
  x0 ← getitem x 0;
  m ← mask_loop (boundaries flow) (convert_to_tensor_bool lattice (zeros_like_bool x0));
  mret {| flow := flow; lattice := lattice; collision := collision;
          streaming := streaming; i := 0; f := f; reporters := [];
          no_collision_mask := m |}.

(** ** The machine

    Everything outside the engine that a method reads or writes: the timer,
    the log of calls made to the collaborating objects, the warnings issued,
    and the files. *)

Inductive call : Type :=
| CallStreaming (x : tensor V)
| CallCollision (x : tensor V)
| CallInitCollision (x : tensor V)
| CallBoundary (boundary : Boundary) (x : tensor V)
| CallReporter (reporter : Reporter) (a b : Z) (x : tensor V).

Record World : Type := {
  clock : nat -> Q;             (* the reading the timer gives at its k-th call *)
  ticks : nat;                  (* how often the timer has been read *)
  calls : list call;            (* oldest first *)
  warnings : list (string * string);   (* category, message *)
  files : gmap string Blob
}.

Record machine : Type := { self : Simulation; world : World }.

(** A method: it comes back with a value or an exception, and in both cases
    with the state it has reached. *)
Definition M (A : Type) : Type := machine -> outcome A * machine.

#[global] Instance M_ret : MRet M := fun A a m => (Returned a, m).
#[global] Instance M_bind : MBind M := fun A B k c m =>
  match c m with
  | (Returned a, m') => k a m'
  | (Raised e, m') => (Raised e, m')
  end.

Definition raise {A} (e : exn) : M A := fun m => (Raised e, m).

Definition lift {A} (o : outcome A) : M A := fun m => (o, m).

Definition get_self : M Simulation := fun m => (Returned (self m), m).

Definition set_f (t : tensor V) : M unit := fun m =>
  let s := self m in
  (Returned tt,
   {| self := {| flow := flow s; lattice := lattice s; collision := collision s;
                 streaming := streaming s; i := i s; f := t;
                 reporters := reporters s;
                 no_collision_mask := no_collision_mask s |};
      world := world m |}).

Definition set_i (k : Z) : M unit := fun m =>
  let s := self m in
  (Returned tt,
   {| self := {| flow := flow s; lattice := lattice s; collision := collision s;
                 streaming := streaming s; i := k; f := f s;
                 reporters := reporters s;
                 no_collision_mask := no_collision_mask s |};
      world := world m |}).

Definition log_call (c : call) : World -> World := fun w =>
  {| clock := clock w; ticks := ticks w; calls := calls w ++ [c];
     warnings := warnings w; files := files w |}.

Definition do_call {A} (c : call) (result : A) : M A := fun m =>
  (Returned result, {| self := self m; world := log_call c (world m) |}).

(** [timeit.default_timer()] *)
Definition timer : M Q := fun m =>
  let w := world m in
  (Returned (clock w (ticks w)),
   {| self := self m;
      world := {| clock := clock w; ticks := S (ticks w); calls := calls w;
                  warnings := warnings w; files := files w |} |}).

(** [warnings.warn(message, category)] *)
Definition warn (message category : string) : M unit := fun m =>
  let w := world m in
  (Returned tt,
   {| self := self m;
      world := {| clock := clock w; ticks := ticks w; calls := calls w;
                  warnings := warnings w ++ [(category, message)];
                  files := files w |} |}).

(** [open(filename, "wb")] followed by a write of [b]: creates or truncates. *)
Definition write_file (filename : string) (b : Blob) : M unit := fun m =>
  let w := world m in
  (Returned tt,
   {| self := self m;
      world := {| clock := clock w; ticks := ticks w; calls := calls w;
                  warnings := warnings w;
                  files := <[filename := b]> (files w) |} |}).

(** [open(filename, "rb")] followed by a read of the whole file. *)
Definition read_file (filename : string) : M Blob := fun m =>
  match files (world m) !! filename with
  | Some b => (Returned b, m)
  | None => (Raised (FileNotFoundError filename), m)
  end.

(** [a / b] on floats. Times and rates are rationals here: the rounding of
    floating point is left out, the test for a zero divisor is exact. *)
Definition true_div (a b : Q) : M Q :=
  if Qeq_bool b 0 then raise (ZeroDivisionError "float division by zero")
  else mret (a / b)%Q.

(** [for _ in range(n): body] *)
Fixpoint for_range (n : nat) (body : M unit) : M unit :=
  match n with
  | O => mret tt
  | S n' => body;; for_range n' body
  end.

(** [for x in l: body(x)] *)
Fixpoint for_each {X} (l : list X) (body : X -> M unit) : M unit :=
  match l with
  | [] => mret tt
  | x :: l' => body x;; for_each l' body
  end.

(** ** [Simulation.step] *)

(** [self.f = self.streaming(self.f)] *)
Definition stream_phase : M unit :=
  s ← get_self;
  r ← do_call (CallStreaming (f s)) (streaming s (f s));
  set_f r.

(** [self.f = torch.where(self.no_collision_mask, self.f, self.collision(self.f))] *)
Definition collide_phase : M unit :=
  s ← get_self;
  c ← do_call (CallCollision (f s)) (collision s (f s));
  r ← lift (torch_where (no_collision_mask s) (f s) c);
  set_f r.

(** [for boundary in self.flow.boundaries: self.f = boundary(self.f)] *)
Definition boundary_phase : M unit :=
  s ← get_self;
  for_each (boundaries (flow s)) (fun boundary =>
    s ← get_self;
    r ← do_call (CallBoundary boundary (f s)) (boundary_call boundary (f s));
    set_f r).

(** [for reporter in self.reporters: reporter(self.i, self.i, self.f)] *)
Definition report_phase : M unit :=
  s ← get_self;
  for_each (reporters s) (fun reporter =>
    s ← get_self;
    do_call (CallReporter reporter (i s) (i s) (f s)) tt).

(** The body of the loop of [step]. *)
Definition step_body : M unit :=
  s ← get_self;
  set_i (i s + 1);;
  stream_phase;;
  collide_phase;;
  boundary_phase;;
  report_phase.

Definition step (num_steps : Z) : M Q :=
  start ← timer;
  for_range (Z.to_nat num_steps) step_body;;
  end_ ← timer;
  let seconds := (end_ - start)%Q in
  s ← get_self;
  let num_grid_points := numel (rho (lattice s) (f s)) in
  mlups ← true_div (inject_Z (num_steps * Z.of_nat num_grid_points) / inject_Z 1000000)%Q
                   seconds;
  mret mlups.

(** ** [Simulation.initialize] *)

(** The test [torch.max(torch.abs(p - p_old)) < tol_pressure]. *)
Definition pressure_converged (p p_old : tensor V) (tol_pressure : V) : outcome bool :=
  d ← torch_sub p p_old;
  m ← torch_max (torch_abs d);
  mret (vlt m tol_pressure).

(** The loop [for i in range(max_num_steps)], from [i = k] with [n] rounds to
    go. [bound] is the value the variable [i] holds so far, if any; the result
    is the value it holds when the loop is left. *)
Fixpoint initialize_loop (streaming collision : tensor V -> tensor V)
    (tol_pressure : V) (n : nat) (k : Z) (p_old : tensor V) (bound : option Z)
  : M (option Z) :=
  match n with
  | O => mret bound
  | S n' =>
      s ← get_self;
      r ← do_call (CallStreaming (f s)) (streaming (f s));
      set_f r;;
      s ← get_self;
      r ← do_call (CallInitCollision (f s)) (collision (f s));
      set_f r;;
      s ← get_self;
      let p := convert_density_lu_to_pressure_pu (units (flow s)) (rho (lattice s) (f s)) in
      b ← lift (pressure_converged p p_old tol_pressure);
      if b : bool then mret (Some k)
      else initialize_loop streaming collision tol_pressure n' (k + 1) p (Some k)
  end.

Definition initialize (max_num_steps : Z) (tol_pressure : V) : M Z :=
  warn ("Iterative initialization does not work well and solutions may diverge. Use with care. "
        +:+ "At some point, we may need to implement a better scheme.")
       "ExperimentalWarning";;
  s ← get_self;
  let transform := get_default_moment_transform (lattice s) in
  let collision := BGKInitialization (lattice s) (flow s) transform in
  let streaming := streaming s in
  (* p_old = 0, the python int, read as a scalar by the subtraction *)
  r ← initialize_loop streaming collision tol_pressure
        (Z.to_nat max_num_steps) 0 (scalar vzero) None;
  match r with
  | Some k => mret k
  | None => raise (UnboundLocalError "local variable 'i' referenced before assignment")
  end.

(** ** Checkpoints *)

Definition save_checkpoint (filename : string) : M unit :=
  s ← get_self;
  write_file filename (pickle_dumps (f s)).

Definition load_checkpoint (filename : string) : M unit :=
  b ← read_file filename;
  t ← lift (pickle_loads b);
  set_f t.

End Engine.

Arguments Units : clear implicits.
Arguments Boundary : clear implicits.
Arguments Flow : clear implicits.
Arguments Lattice : clear implicits.
Arguments Lettuce : clear implicits.
Arguments Simulation : clear implicits.
Arguments call : clear implicits.
Arguments World : clear implicits.
Arguments machine : clear implicits.
Arguments M : clear implicits.

(** ** Reference definitions

    What the statements below compare the engine with. *)

Section Reference.
Context {V : Type} `{!Num V}.
Context {Reporter Transform Blob : Type}.
Context `{!Lettuce V Transform Blob}.

Abbreviation Simulation := (Simulation V Reporter).
Abbreviation machine := (machine V Reporter Blob).
Abbreviation call := (call V Reporter).
Abbreviation M := (M V Reporter Blob).

(** A boundary is of the bounce-back kind. *)
Definition bounce_back (b : Boundary V) : bool :=
  String.eqb (class_name b) "BounceBackBoundary".

(** The logical OR, at one site, of the masks of the bounce-back boundaries
    of a list. *)
Definition or_of_masks (bs : list (Boundary V)) (site : list nat) : bool :=
  existsb (fun b => bounce_back b &&
                    match mask b with Some m => item m site | None => false end) bs.

(** The boundaries of a list applied in list order, each to the output of the
    one before. *)
Definition apply_boundaries (bs : list (Boundary V)) (x : tensor V) : tensor V :=
  foldl (fun y b => boundary_call b y) x bs.

(** The calls that applying them makes. *)
Fixpoint boundary_calls (bs : list (Boundary V)) (x : tensor V) : list call :=
  match bs with
  | [] => []
  | b :: bs' => CallBoundary b x :: boundary_calls bs' (boundary_call b x)
  end.

(** One call per reporter, in list order, with the step index twice. *)
Definition reporter_calls (rs : list Reporter) (k : Z) (x : tensor V) : list call :=
  (fun r => CallReporter r k k x) <$> rs.

(** Everything of an engine but its field. *)
Definition same_but_f (s s' : Simulation) : Prop :=
  flow s' = flow s /\ lattice s' = lattice s /\ collision s' = collision s /\
  streaming s' = streaming s /\ i s' = i s /\ reporters s' = reporters s /\
  no_collision_mask s' = no_collision_mask s.

(** The initialization collision that [initialize] builds for an engine. *)
Definition init_collision (s : Simulation) : tensor V -> tensor V :=
  BGKInitialization (lattice s) (flow s) (get_default_moment_transform (lattice s)).

(** One round of [initialize]: stream, then collide, at every site. *)
Definition init_round (s : Simulation) (x : tensor V) : tensor V :=
  init_collision s (streaming s x).

(** The field after [n] rounds. *)
Definition init_field (s : Simulation) (n : nat) : tensor V :=
  Nat.iter n (init_round s) (f s).

Definition pressure_of (s : Simulation) (x : tensor V) : tensor V :=
  convert_density_lu_to_pressure_pu (units (flow s)) (rho (lattice s) x).

(** The pressure of iteration [k] (counted from 0) and the pressure it is
    compared with: that of the iteration before, and 0 for the first. *)
Definition init_pressure (s : Simulation) (k : nat) : tensor V :=
  pressure_of s (init_field s (S k)).

Definition init_previous (s : Simulation) (k : nat) : tensor V :=
  match k with
  | O => scalar vzero
  | S k' => init_pressure s k'
  end.

(** The test of the loop comes out true, respectively false, at iteration
    [k]. *)
Definition test_accepts (s : Simulation) (tol_pressure : V) (k : nat) : Prop :=
  pressure_converged (init_pressure s k) (init_previous s k) tol_pressure = Returned true.

Definition test_rejects (s : Simulation) (tol_pressure : V) (k : nat) : Prop :=
  pressure_converged (init_pressure s k) (init_previous s k) tol_pressure = Returned false.

(** The largest absolute difference between two pressures is below [tol]:
    at every index, the elements of [p] and [p_prev] differ by less than
    [tol] in absolute value. *)
Definition max_abs_diff_below (p p_prev : tensor V) (tol : V) : Prop :=
  forall ix, in_range ix (shape p) ->
    vlt (vabs (vsub (item p ix) (item p_prev ix))) tol = true.

(** The same against the number 0. *)
Definition max_abs_below (p : tensor V) (tol : V) : Prop :=
  forall ix, in_range ix (shape p) -> vlt (vabs (vsub (item p ix) vzero)) tol = true.

(** The convergence criterion at iteration [k]: the pressure of the iteration
    against that of the iteration before; at the first iteration, which has
    none before it, against 0. *)
Definition criterion_holds (s : Simulation) (tol_pressure : V) (k : nat) : Prop :=
  match k with
  | O => max_abs_below (init_pressure s 0) tol_pressure
  | S k' => max_abs_diff_below (init_pressure s k) (init_pressure s k') tol_pressure
  end.

Definition criterion_fails (s : Simulation) (tol_pressure : V) (k : nat) : Prop :=
  ~ criterion_holds s tol_pressure k.

(** The criterion with a pressure to compare with at every iteration: the
    pressure of the iteration against the pressure of the field the iteration
    started from. From the second iteration on it is [criterion_holds]. *)
Definition criterion_against_previous (s : Simulation) (tol_pressure : V) (k : nat)
  : Prop :=
  max_abs_diff_below (init_pressure s k) (pressure_of s (init_field s k)) tol_pressure.

(** The calls [initialize] makes in [n] rounds from the field [x]. *)
Fixpoint init_calls (s : Simulation) (n : nat) (x : tensor V) : list call :=
  match n with
  | O => []
  | S n' => CallStreaming x :: CallInitCollision (streaming s x)
            :: init_calls s n' (init_round s x)
  end.

(** Collaborators that keep shapes: the field has the shape [fs] and keeps it
    under streaming and the initialization collision; the pressure of such a
    field has the shape [ps], which has at least one element. *)
Record well_shaped (s : Simulation) (fs ps : list nat) : Prop := {
  ws_f : shape (f s) = fs;
  ws_streaming : forall x, shape x = fs -> shape (streaming s x) = fs;
  ws_init : forall x, shape x = fs -> shape (init_collision s x) = fs;
  ws_pressure : forall x, shape x = fs -> shape (pressure_of s x) = ps;
  ws_points : numel_of ps <> 0
}.

(** Unpickling gives back what was pickled. *)
Definition pickle_faithful : Prop :=
  forall t : tensor V, exists t', pickle_loads (pickle_dumps t) = Returned t' /\ same t' t.

(** The machine [m] with the timer read [k] times so far. *)
Definition retick (k : nat) (m : machine) : machine :=
  {| self := self m;
     world := {| clock := clock (world m); ticks := k; calls := calls (world m);
                 warnings := warnings (world m); files := files (world m) |} |}.

(** A computation that does not look at the timer: it runs the same, and
    leaves the count of readings alone, whatever that count is. *)
Definition timeless {A} (c : M A) : Prop :=
  forall m k, c (retick k m) = (fst (c m), retick k (snd (c m))).

(** An engine with another field, or another step counter. *)
Definition with_f (x : tensor V) (s : Simulation) : Simulation :=
  {| flow := flow s; lattice := lattice s; collision := collision s;
     streaming := streaming s; i := i s; f := x; reporters := reporters s;
     no_collision_mask := no_collision_mask s |}.

Definition with_i (k : Z) (s : Simulation) : Simulation :=
  {| flow := flow s; lattice := lattice s; collision := collision s;
     streaming := streaming s; i := k; f := f s; reporters := reporters s;
     no_collision_mask := no_collision_mask s |}.

(** The machine [m] once the engine has become [s] and the calls [l] have
    been made. *)
Definition after (s : Simulation) (l : list call) (m : machine) : machine :=
  {| self := s;
     world := {| clock := clock (world m); ticks := ticks (world m);
                 calls := calls (world m) ++ l;
                 warnings := warnings (world m); files := files (world m) |} |}.

(** The parts of an engine that no method assigns to. *)
Definition same_config (s s' : Simulation) : Prop :=
  flow s' = flow s /\ lattice s' = lattice s /\ collision s' = collision s /\
  streaming s' = streaming s /\ reporters s' = reporters s /\
  no_collision_mask s' = no_collision_mask s.

(** The warning [initialize] issues. *)
Definition experimental_warning : string * string :=
  ("ExperimentalWarning",
   "Iterative initialization does not work well and solutions may diverge. Use with care. "
   +:+ "At some point, we may need to implement a better scheme.").

(** The reporter calls of a call log: who was called, with which two
    indices. *)
Definition reporter_event (c : call) : option (Reporter * Z * Z) :=
  match c with
  | CallReporter r a b _ => Some (r, a, b)
  | _ => None
  end.

Definition reports (l : list call) : list (Reporter * Z * Z) := omap reporter_event l.

(** What [n] steps from the counter [i0] report: in each step, every reporter
    of the list in order, with the counter of that step twice. *)
Fixpoint expected_reports (rs : list Reporter) (i0 : Z) (n : nat)
  : list (Reporter * Z * Z) :=
  match n with
  | O => []
  | S n' => ((fun r => (r, (i0 + 1)%Z, (i0 + 1)%Z)) <$> rs)
            ++ expected_reports rs (i0 + 1) n'
  end.

(** Every element of a mask has the value [b]. *)
Definition constant_mask (b : bool) (t : tensor bool) : Prop :=
  forall site, in_range site (shape t) -> item t site = b.

End Reference.

(** ** The command line ([lettuce/cli.py]) *)

(** The three dtypes of the option [--precision], and what [str] gives for
    them. *)
Inductive torch_dtype : Type := torch_half | torch_float | torch_double.

Definition str_dtype (d : torch_dtype) : string :=
  match d with
  | torch_half => "torch.float16"
  | torch_float => "torch.float32"
  | torch_double => "torch.float64"
  end.

(** [torch.device(spec)] *)
Inductive torch_device : Type := Device (spec : string).

(** The exceptions of [main]: its own two, and what [torch.device] raised. *)
Inductive cli_exn : Type :=
| Abort
| KeyError (key : string)
| TorchError (e : exn).

Inductive cli_result (A : Type) : Type :=
| Done (a : A)
| Failed (e : cli_exn).
Arguments Done {A} _.
Arguments Failed {A} _.

(** [ctx.obj], a dict with the keys ['device'], ['dtype'] and ['lov']; [None]
    is a python [None]. *)
Record context_obj : Type := {
  obj_device : option torch_device;
  obj_dtype : option torch_dtype;
  obj_lov : option bool
}.

(** The dict of [main] from the names of the precisions to the dtypes. *)
Definition precisions : gmap string torch_dtype :=
  list_to_map [("half", torch_half); ("single", torch_float); ("double", torch_double)].

(** The end of [main], once the device is chosen: the lookup of the dtype
    and the three assignments to [ctx.obj]. *)
Definition main_finish (obj : context_obj) (device : torch_device)
    (precision : string) (lov : bool)
  : cli_result unit * context_obj * list string :=
  match precisions !! precision with
  | None => (Failed (KeyError precision), obj, [])
  | Some dtype =>
      (Done tt,
       {| obj_device := Some device; obj_dtype := Some dtype; obj_lov := Some lov |},
       [])
  end.

(** [main(ctx, cuda, gpu_id, precision, lov)], run where
    [torch.cuda.is_available()] gives [cuda_is_available] and
    [torch.device(spec)] gives [torch_device_of spec], a device or an error
    (torch raises [RuntimeError] on a negative index): how it ends, the
    [ctx.obj] it leaves and the lines it has printed. *)
Definition main (cuda_is_available : bool)
    (torch_device_of : string -> outcome torch_device)
    (cuda : bool) (gpu_id : Z) (precision : string) (lov : bool)
  : cli_result unit * context_obj * list string :=
  let obj := {| obj_device := None; obj_dtype := None; obj_lov := None |} in
  if cuda then
    if negb cuda_is_available then
      (Failed Abort, obj, ["CUDA not found."])
    else
      match torch_device_of ("cuda:" +:+ pretty gpu_id) with
      | Raised e => (Failed (TorchError e), obj, [])
      | Returned device => main_finish obj device precision lov
      end
  else
    match torch_device_of "cpu" with
    | Raised e => (Failed (TorchError e), obj, [])
    | Returned device => main_finish obj device precision lov
    end.

(** [s.replace(old, new)] for a non-empty [old]: the occurrences of [old] are
    replaced from the left, without overlap. [skip] counts the characters of
    an occurrence still to be passed over. *)
Fixpoint replace_from (old new : string) (skip : nat) (s : string) : string :=
  match s with
  | EmptyString => EmptyString
  | String c s' =>
      match skip with
      | S k => replace_from old new k s'
      | O =>
          if String.prefix old s
          then new +:+ replace_from old new (String.length old - 1) s'
          else String c (replace_from old new 0 s')
      end
  end.

Definition str_replace (s old new : string) : string := replace_from old new 0 s.

(** [str] of an entry of [ctx.obj] that holds a dtype. *)
Definition str_obj_dtype (d : option torch_dtype) : string :=
  match d with
  | Some d => str_dtype d
  | None => "None"
  end.

Section Cli.
Context {V : Type} `{!Num V}.
Context {Reporter Transform Blob Tau : Type}.
Context `{!Lettuce V Transform Blob}.

(** What [cli.py] imports from the package: the constructors of its objects
    (the stencil [D2Q9] is the one they are all called with), the relaxation
    parameter of a flow's units, and the float format [{:10.2f}]. *)
Class Package : Type := {
  new_Lattice : option torch_device -> option torch_dtype -> Lattice V;
  new_LatticeOfVector : option torch_device -> option torch_dtype -> Lattice V;
  TaylorGreenVortex2D : Z -> Q -> Q -> Lattice V -> Flow V;
  relaxation_parameter_lu : Units V -> Tau;
  BGKCollision : Lattice V -> Tau -> tensor V -> tensor V;
  StandardStreaming : Lattice V -> tensor V -> tensor V;
  format_10_2f : Q -> string
}.
Context `{!Package}.

(** The line [benchmark] echoes. *)
Definition benchmark_line (steps : Z) (dtype : option torch_dtype) (mlups : Q) : string :=
  "Finished " +:+ pretty steps +:+ " steps in "
  +:+ str_replace (str_obj_dtype dtype) "torch.float" ""
  +:+ " bit precision. MLUPS: " +:+ format_10_2f mlups.

(** The first part of [benchmark]: the objects it builds from [ctx.obj] and
    the resolution, up to the engine. *)
Definition benchmark_simulation (obj : context_obj) (resolution : Z)
  : outcome (Simulation V Reporter) :=
  let device := obj_device obj in
  let dtype := obj_dtype obj in
  let lov := obj_lov obj in
  let lattice :=
    match lov with
    | Some true => new_LatticeOfVector device dtype
    | _ => new_Lattice device dtype
    end in
  let flow := TaylorGreenVortex2D resolution 1 (5 # 100) lattice in
  let collision := BGKCollision lattice (relaxation_parameter_lu (units flow)) in
  let streaming := StandardStreaming lattice in
  Simulation__init__ flow lattice collision streaming.

(** [benchmark(ctx, steps, resolution, profile)]: the exit code or the
    exception, the lines echoed, and the world it leaves. The branch on
    [profile] is empty in the source. *)
Definition benchmark (obj : context_obj) (steps resolution : Z) (profile : bool)
    (w : World V Reporter Blob)
  : outcome Z * list string * World V Reporter Blob :=
  match benchmark_simulation obj resolution with
  | Raised e => (Raised e, [], w)
  | Returned simulation =>
      match step steps {| self := simulation; world := w |} with
      | (Raised e, m) => (Raised e, [], world m)
      | (Returned mlups, m) =>
          (Returned 0%Z, [benchmark_line steps (obj_dtype obj) mlups], world m)
      end
  end.

(** The number of bits a dtype stands for. *)
Definition bits (d : torch_dtype) : string :=
  match d with
  | torch_half => "16"
  | torch_float => "32"
  | torch_double => "64"
  end.

End Cli.

Arguments Package : clear implicits.

(** ** A small engine to run

    One spatial dimension, two sites, three directions, integer populations;
    a bounce-back wall on the first site and one further boundary. *)

Module Demo.

#[export] Instance Z_num : Num Z :=
  {| vzero := 0%Z; vsub := Z.sub; vabs := Z.abs; vmax := Z.max; vlt := Z.ltb |}.

Definition constant (s : list nat) (v : Z) : tensor Z := Tensor s (fun _ => v).

Definition the_units : Units Z :=
  {| convert_velocity_to_lu := id;
     convert_pressure_pu_to_density_lu := id;
     convert_density_lu_to_pressure_pu := id |}.

Definition wall_mask : tensor bool :=
  Tensor [2] (fun ix => match ix with [O] => true | _ => false end).

Definition wall : Boundary Z :=
  {| class_name := "BounceBackBoundary"; mask := Some wall_mask;
     boundary_call := tmap (Z.add 100) |}.

Definition outlet : Boundary Z :=
  {| class_name := "EquilibriumBoundaryPU";
     mask := Some (Tensor [2] (fun _ => true));
     boundary_call := tmap (Z.mul 3) |}.

Definition the_grid_array : tensor Z := Tensor [2] (fun ix => Z.of_nat (hd O ix)).

(** A pressure that differs between the two sites, and a fluid at rest. *)
Definition the_pressure : tensor Z :=
  Tensor [1; 2] (fun ix => (5 + Z.of_nat (nth 1 ix O))%Z).
Definition the_velocity : tensor Z := constant [1; 2] 0.

Definition the_flow : Flow Z :=
  {| grid := [the_grid_array];
     initial_solution := fun _ => (the_pressure, the_velocity);
     units := the_units;
     boundaries := [wall; outlet] |}.

(** The same flow, with a pressure field of the wrong shape. *)
Definition bad_pressure_flow : Flow Z :=
  {| grid := grid the_flow;
     initial_solution := fun _ => (constant [2] 5, the_velocity);
     units := the_units;
     boundaries := boundaries the_flow |}.

(** The same flow, with a velocity field of the wrong shape. *)
Definition bad_velocity_flow : Flow Z :=
  {| grid := grid the_flow;
     initial_solution := fun _ => (the_pressure, constant [2; 2] 0);
     units := the_units;
     boundaries := boundaries the_flow |}.

Definition the_lattice : Lattice Z :=
  {| D := 1;
     convert_to_tensor := id;
     convert_to_tensor_bool := id;
     equilibrium := fun rho u =>
       Tensor (3 :: tl (shape rho))
              (fun ix => (item rho (O :: tl ix) + Z.of_nat (hd O ix))%Z);
     rho := fun x =>
       Tensor (1 :: tl (shape x))
              (fun ix => (item x (0%nat :: tl ix) + item x (1%nat :: tl ix)
                          + item x (2%nat :: tl ix))%Z) |}.

(** Direction 1 moves one site to the right, direction 2 one to the left, on
    a periodic line of two sites. *)
Definition the_streaming (x : tensor Z) : tensor Z :=
  Tensor (shape x) (fun ix =>
    match ix with
    | [O; k] => item x [O; k]
    | [q; k] => item x [q; (k + 1) mod 2]
    | _ => item x ix
    end).

Definition the_collision : tensor Z -> tensor Z := tmap (Z.mul 2).

#[export] Instance the_lettuce : Lettuce Z unit (tensor Z) :=
  {| get_default_moment_transform := fun _ => tt;
     BGKInitialization := fun _ _ _ => tmap (fun _ => 1%Z);
     pickle_dumps := id;
     pickle_loads := Returned |}.

Definition the_simulation : Simulation Z string :=
  {| flow := the_flow; lattice := the_lattice; collision := the_collision;
     streaming := the_streaming; i := 0;
     f := equilibrium the_lattice the_pressure the_velocity;
     reporters := ["energy"; "error"];
     no_collision_mask := wall_mask |}.

Definition the_world (clock : nat -> Q) : World Z string (tensor Z) :=
  {| clock := clock; ticks := 0; calls := []; warnings := []; files := ∅ |}.

(** A timer that advances by one second per reading, and one that stands
    still. *)
Definition running_clock (k : nat) : Q := inject_Z (Z.of_nat k).
Definition stopped_clock (k : nat) : Q := 7%Q.

Definition the_machine : machine Z string (tensor Z) :=
  {| self := the_simulation; world := the_world running_clock |}.

Definition stopped_machine : machine Z string (tensor Z) :=
  {| self := the_simulation; world := the_world stopped_clock |}.

(** The machine after a call of [step], and the rate the call returned. *)
Definition stepped (n : Z) (m : machine Z string (tensor Z)) : machine Z string (tensor Z) :=
  snd (step n m).

Definition rate (n : Z) (m : machine Z string (tensor Z)) : Q :=
  match fst (step n m) with
  | Returned q => q
  | Raised _ => 0%Q
  end.

(** A call has returned. *)
Definition returned {A} (o : outcome A) : bool :=
  match o with
  | Returned _ => true
  | Raised _ => false
  end.

(** Row-major listing of a tensor's elements. *)
Definition elements {A} (t : tensor A) : list A := item t <$> indices (shape t).

(** The small engine with another mask. *)
Definition masked_with (mk : tensor bool) : Simulation Z string :=
  {| flow := the_flow; lattice := the_lattice; collision := the_collision;
     streaming := the_streaming; i := 0; f := f the_simulation;
     reporters := ["energy"; "error"]; no_collision_mask := mk |}.

(** A mask that does not fit the field, and a mask without a wall. *)
Definition broken_machine : machine Z string (tensor Z) :=
  {| self := masked_with (Tensor [3] (fun _ => true));
     world := the_world running_clock |}.

Definition unmasked_machine : machine Z string (tensor Z) :=
  {| self := masked_with (Tensor [2] (fun _ => false));
     world := the_world running_clock |}.

(** The small engine on a grid without points. *)
Definition empty_machine : machine Z string (tensor Z) :=
  {| self := with_f (Tensor [3; 0] (fun _ => 0%Z)) the_simulation;
     world := the_world running_clock |}.

(** An engine with the field, flow, lattice and streaming of the small one,
    and nothing else in common with it. *)
Definition other_machine : machine Z string (tensor Z) :=
  {| self := {| flow := the_flow; lattice := the_lattice; collision := id;
                streaming := the_streaming; i := 7; f := f the_simulation;
                reporters := []; no_collision_mask := Tensor [2] (fun _ => true) |};
     world := the_world stopped_clock |}.

(** A flow without grid arrays. *)
Definition no_grid_flow : Flow Z :=
  {| grid := [];
     initial_solution := fun _ => (the_pressure, the_velocity);
     units := the_units;
     boundaries := boundaries the_flow |}.

(** The engine the constructor returns for the small flow. *)
Definition constructed : Simulation Z string :=
  match Simulation__init__ the_flow the_lattice the_collision the_streaming with
  | Returned s => s
  | Raised _ => the_simulation
  end.

(** A package whose constructors give the objects of the small engine. *)
#[export] Instance the_package : Package Z unit :=
  {| new_Lattice := fun _ _ => the_lattice;
     new_LatticeOfVector := fun _ _ => the_lattice;
     TaylorGreenVortex2D := fun _ _ _ _ => the_flow;
     relaxation_parameter_lu := fun _ => tt;
     BGKCollision := fun _ _ => the_collision;
     StandardStreaming := fun _ => the_streaming;
     format_10_2f := fun _ => "      0.00" |}.

(** [torch.device] as far as the examples need it: a negative index is
    refused. *)
Definition the_torch_device (spec : string) : outcome torch_device :=
  if String.prefix "cuda:-" spec
  then Raised (RuntimeError "Device index must not be negative")
  else Returned (Device spec).

Definition the_context : context_obj :=
  {| obj_device := Some (Device "cpu"); obj_dtype := Some torch_double;
     obj_lov := Some false |}.

End Demo.

(** * Properties *)

(** ** Shapes and broadcasting *)

Lemma bcast_dim_same a : bcast_dim a a = Some a.
Proof. unfold bcast_dim. by rewrite Nat.eqb_refl. Qed.

Lemma bcast_rev_nil_r s : bcast_rev s [] = Some s.
Proof. by destruct s. Qed.

Lemma bcast_rev_prefix l l' : bcast_rev l (l ++ l') = Some (l ++ l').
Proof.
  induction l as [|a l IH]; simpl; [done|].
  by rewrite bcast_dim_same, IH.
Qed.

Lemma broadcast_shapes_same s : broadcast_shapes s s = Some s.
Proof.
  unfold broadcast_shapes.
  rewrite <- (app_nil_r (rev s)) at 2.
  rewrite bcast_rev_prefix, app_nil_r. by rewrite rev_involutive.
Qed.

Lemma broadcast_shapes_lead a g : broadcast_shapes g (a :: g) = Some (a :: g).
Proof.
  unfold broadcast_shapes. simpl rev.
  rewrite bcast_rev_prefix. rewrite rev_app_distr. simpl.
  by rewrite rev_involutive.
Qed.

Lemma broadcast_shapes_scalar_r s : broadcast_shapes s [] = Some s.
Proof.
  unfold broadcast_shapes. simpl. rewrite bcast_rev_nil_r.
  by rewrite rev_involutive.
Qed.

Lemma in_range_length ix s : in_range ix s -> length ix = length s.
Proof. apply Forall2_length. Qed.

Lemma bcast_index_zip s ix :
  in_range ix s -> zip_with (fun d k => if Nat.eqb d 1 then 0 else k) s ix = ix.
Proof.
  induction 1 as [|k d ix s Hk _ IH]; simpl; [done|].
  rewrite IH. destruct (Nat.eqb_spec d 1); [|done].
  f_equal. lia.
Qed.

Lemma bcast_index_same s ix : in_range ix s -> bcast_index s ix = ix.
Proof.
  intros H. unfold bcast_index.
  rewrite (in_range_length _ _ H), Nat.sub_diag. simpl.
  by apply bcast_index_zip.
Qed.

Lemma bcast_index_lead g q ix : in_range ix g -> bcast_index g (q :: ix) = ix.
Proof.
  intros H. unfold bcast_index. simpl length.
  rewrite (in_range_length _ _ H).
  replace (S (length g) - length g) with 1 by lia. simpl.
  by apply bcast_index_zip.
Qed.

Lemma length_indices s : length (indices s) = numel_of s.
Proof.
  induction s as [|d s IH]; simpl; [done|].
  change (numel_of (d :: s)) with (d * numel_of s).
  rewrite <- IH. generalize 0.
  induction d as [|d IHd]; intros k; simpl; [done|].
  rewrite length_app, length_fmap, IHd. done.
Qed.

Lemma indices_nonempty s : numel_of s <> 0 -> indices s <> [].
Proof.
  intros H E. apply H. rewrite <- length_indices, E. done.
Qed.

(** ** The engine *)

Section Properties.
Context {V : Type} `{!Num V}.
Context {Reporter Transform Blob : Type}.
Context `{!Lettuce V Transform Blob}.

Abbreviation Simulation := (Simulation V Reporter).
Abbreviation machine := (machine V Reporter Blob).
Abbreviation call := (call V Reporter).
Abbreviation M := (M V Reporter Blob).

Implicit Types (m : machine) (s : Simulation) (x : tensor V).

(** Unfolds the monad down to matches on the outcomes of the calls. *)
Ltac run :=
  unfold mbind, M_bind, mret, M_ret, get_self, set_f, set_i, do_call, lift, raise;
  simpl.

(** *** The select of the collision phase *)

Lemma torch_where_field {A} (c : tensor bool) (a b : tensor A) q g :
  shape c = g -> shape a = q :: g -> shape b = q :: g ->
  exists w, torch_where c a b = Returned w /\ shape w = q :: g /\
    forall d site, d < q -> in_range site g ->
      item w (d :: site) = if item c site then item a (d :: site) else item b (d :: site).
Proof.
  intros Hc Ha Hb. unfold torch_where.
  rewrite Hc, Ha, Hb, broadcast_shapes_lead, broadcast_shapes_same.
  eexists; split; [reflexivity|]. split; [reflexivity|].
  intros d site Hd Hsite. simpl. unfold bcast_item.
  rewrite Hc, Ha, Hb, (bcast_index_lead _ _ _ Hsite).
  rewrite bcast_index_same; [done|]. by constructor.
Qed.

(** C1. In a step, the field the collision phase leaves has, at every site
    where the no-collision mask is true, the value streaming produced, and at
    every other site the value the collision operator returned, in each of the
    [q] directions alike; the boundaries and reporters of the step run on that
    field. *)
Theorem step_collision_select m (q : nat) (g : list nat) :
  let s := self m in
  let streamed := streaming s (f s) in
  let collided := collision s streamed in
  shape (no_collision_mask s) = g ->
  shape streamed = q :: g ->
  shape collided = q :: g ->
  exists m1,
    (s0 ← get_self; set_i (i s0 + 1);; stream_phase;; collide_phase) m
      = (Returned tt, m1) /\
    step_body m = (boundary_phase;; report_phase) m1 /\
    shape (f (self m1)) = q :: g /\
    forall d site, d < q -> in_range site g ->
      item (f (self m1)) (d :: site)
      = if item (no_collision_mask s) site
        then item streamed (d :: site) else item collided (d :: site).
Proof.
  intros s streamed collided Hmask Hs Hc.
  destruct (torch_where_field (no_collision_mask s) streamed collided q g)
    as (w & Hw & Hshape & Hsel); [done..|].
  unfold step_body, stream_phase, collide_phase. run.
  fold s. fold streamed. fold collided. rewrite Hw.
  eexists; split; [reflexivity|]. split; [reflexivity|]. simpl. by split.
Qed.

(** *** Computations that do not look at the timer *)

Lemma timeless_ret {A} (a : A) : timeless (mret a : M A).
Proof. done. Qed.

Lemma timeless_bind {A B} (c : M A) (k : A -> M B) :
  timeless c -> (forall a, timeless (k a)) -> timeless (c ≫= k).
Proof.
  intros Hc Hk m t. unfold mbind, M_bind. rewrite Hc.
  destruct (c m) as [[a|e] m']; simpl; [apply Hk|done].
Qed.

Lemma timeless_get_self (k : Simulation -> M unit) :
  (forall s, timeless (k s)) -> timeless (get_self ≫= k).
Proof. intros Hk m t. unfold mbind, M_bind, get_self. apply Hk. Qed.

Lemma timeless_set_f x : timeless (set_f x : M unit).
Proof. done. Qed.

Lemma timeless_set_i k : timeless (set_i k : M unit).
Proof. done. Qed.

Lemma timeless_do_call {A} (c : call) (a : A) : timeless (do_call c a : M A).
Proof. done. Qed.

Lemma timeless_lift {A} (o : outcome A) : timeless (lift o : M A).
Proof. done. Qed.

Lemma timeless_for_each {X} (l : list X) (body : X -> M unit) :
  (forall a, timeless (body a)) -> timeless (for_each l body).
Proof.
  intros Hb. induction l as [|a l IH]; simpl; [done|].
  apply timeless_bind; [apply Hb|done].
Qed.

Lemma timeless_for_range n (body : M unit) :
  timeless body -> timeless (for_range n body).
Proof.
  intros Hb. induction n as [|n IH]; simpl; [done|].
  by apply timeless_bind.
Qed.

Create HintDb timeless.
#[local] Hint Resolve timeless_ret timeless_set_f timeless_set_i
  timeless_do_call timeless_lift : timeless.

Ltac timeless :=
  repeat first
    [ apply timeless_get_self; intros ?
    | apply timeless_for_each; intros ?
    | apply timeless_bind; [|intros ?]
    | solve [auto with timeless] ].

Lemma timeless_step_body : timeless (step_body : M unit).
Proof.
  unfold step_body, stream_phase, collide_phase, boundary_phase, report_phase.
  timeless.
Qed.

(** A loop of [a + b] rounds is a loop of [a] rounds followed by one of [b]. *)
Lemma for_range_add a b (body : M unit) m :
  for_range (a + b) body m = (for_range a body;; for_range b body) m.
Proof.
  revert m. induction a as [|a IH]; intros m; simpl; [done|].
  unfold mbind, M_bind in *.
  destruct (body m) as [[[]|e] m']; [|done].
  apply IH.
Qed.

(** [step] is its loop between two readings of the timer, and a division. *)
Lemma step_unfold (num_steps : Z) m :
  let R := for_range (Z.to_nat num_steps) step_body m in
  let t := ticks (world m) in
  step num_steps m =
  match fst R with
  | Returned _ =>
      let m2 := retick (S (S t)) (snd R) in
      (true_div (inject_Z (num_steps * Z.of_nat (numel (rho (lattice (self m2)) (f (self m2)))))
                 / inject_Z 1000000)%Q
                (clock (world m2) (S t) - clock (world m) t)%Q m2)
  | Raised e => (Raised e, retick (S t) (snd R))
  end.
Proof.
  intros R t. unfold step, timer.
  unfold mbind at 1. unfold M_bind at 1. simpl.
  unfold mbind at 1. unfold M_bind at 1.
  change {| self := self m; world := _ |} with (retick (S t) m).
  rewrite (timeless_for_range _ _ timeless_step_body). fold R.
  destruct (fst R) as [[]|e]; [|done]. simpl.
  unfold mbind, M_bind, get_self, true_div, raise, mret, M_ret. simpl.
  by destruct (Qeq_bool _ _).
Qed.

Lemma true_div_state (a b : Q) m : snd (true_div a b m) = m.
Proof. unfold true_div. by destruct (Qeq_bool b 0). Qed.

(** What [step] leaves of the engine is what its loop leaves. *)
Lemma step_self (num_steps : Z) m :
  self (snd (step num_steps m))
  = self (snd (for_range (Z.to_nat num_steps) step_body m)).
Proof.
  rewrite step_unfold. simpl.
  destruct (fst _) as [[]|e]; [|done].
  by rewrite true_div_state.
Qed.

Lemma step_returned (num_steps : Z) m q m' :
  step num_steps m = (Returned q, m') ->
  fst (for_range (Z.to_nat num_steps) step_body m) = Returned tt /\
  exists k, m' = retick k (snd (for_range (Z.to_nat num_steps) step_body m)).
Proof.
  rewrite step_unfold. simpl.
  destruct (fst _) as [[]|e]; [|done].
  intros E. split; [done|].
  eexists. apply (f_equal snd) in E. rewrite true_div_state in E.
  symmetry. exact E.
Qed.

(** *** Stepping in two calls *)

(** C2. When [step(n1)] and then [step(n2)] have returned, the engine holds
    the field and the step counter that a single [step(n1 + n2)] from the
    same start leaves, for all non-negative [n1] and [n2]. *)
Theorem step_then_step (n1 n2 : Z) m (q1 q2 : Q) (m1 m2 : machine) :
  (0 <= n1)%Z -> (0 <= n2)%Z ->
  step n1 m = (Returned q1, m1) ->
  step n2 m1 = (Returned q2, m2) ->
  f (self (snd (step (n1 + n2) m))) = f (self m2) /\
  i (self (snd (step (n1 + n2) m))) = i (self m2).
Proof.
  intros Hn1 Hn2 H1 H2.
  apply step_returned in H1 as (R1 & k1 & ->).
  apply step_returned in H2 as (R2 & k2 & ->).
  rewrite (timeless_for_range _ _ timeless_step_body) in R2 |- *.
  simpl in R2.
  rewrite step_self, Z2Nat.inj_add, for_range_add by done.
  unfold mbind, M_bind.
  destruct (for_range (Z.to_nat n1) step_body m) as [r ma]. simpl in *.
  subst r. done.
Qed.

(** *** A call with no steps *)

(** C4, as the engine has it. [step(0)] leaves the field and the step counter
    as they are. Its result is the quotient of 0 by the elapsed time: 0 when
    the two readings of the timer differ, and a [ZeroDivisionError] when they
    are equal, which nothing in [step] rules out. *)
Theorem step_zero m :
  let t := ticks (world m) in
  let seconds := (clock (world m) (S t) - clock (world m) t)%Q in
  f (self (snd (step 0 m))) = f (self m) /\
  i (self (snd (step 0 m))) = i (self m) /\
  fst (step 0 m)
    = (if Qeq_bool seconds 0
       then Raised (ZeroDivisionError "float division by zero")
       else Returned (inject_Z 0 / inject_Z 1000000 / seconds)%Q) /\
  (inject_Z 0 / inject_Z 1000000 / seconds == 0)%Q.
Proof.
  intros t seconds. rewrite step_self. simpl.
  split; [done|]. split; [done|]. split.
  - rewrite step_unfold. simpl. unfold true_div. fold t. fold seconds.
    by destruct (Qeq_bool seconds 0).
  - unfold Qdiv. by rewrite !Qmult_0_l.
Qed.

(** *** One step, written out *)

Lemma after_after s1 s2 (l1 l2 : list call) m :
  after s2 l2 (after s1 l1 m) = after s2 (l1 ++ l2) m.
Proof. unfold after. simpl. by rewrite app_assoc. Qed.

Lemma boundary_loop (bs : list (Boundary V)) m :
  for_each bs (fun boundary =>
    s ← get_self;
    r ← do_call (CallBoundary boundary (f s)) (boundary_call boundary (f s));
    set_f r) m
  = (Returned tt,
     after (with_f (apply_boundaries bs (f (self m))) (self m))
           (boundary_calls bs (f (self m))) m).
Proof.
  revert m. induction bs as [|b bs IH]; intros m.
  - destruct m as [[] []]. unfold after, with_f. simpl. by rewrite app_nil_r.
  - simpl. run. rewrite IH. simpl. unfold after, with_f. simpl.
    by rewrite <- app_assoc.
Qed.

Lemma reporter_loop (rs : list Reporter) m :
  for_each rs (fun reporter =>
    s ← get_self;
    do_call (CallReporter reporter (i s) (i s) (f s)) tt) m
  = (Returned tt,
     after (self m) (reporter_calls rs (i (self m)) (f (self m))) m).
Proof.
  revert m. induction rs as [|r rs IH]; intros m.
  - destruct m as [? []]. unfold after. simpl. by rewrite app_nil_r.
  - simpl. run. rewrite IH. simpl. unfold after. simpl.
    by rewrite <- app_assoc.
Qed.

(** The body of the loop of [step], as a function of the state it starts
    in. *)
Lemma step_body_run m :
  let s := self m in
  let streamed := streaming s (f s) in
  let collided := collision s streamed in
  let bs := boundaries (flow s) in
  step_body m =
  match torch_where (no_collision_mask s) streamed collided with
  | Returned w =>
      (Returned tt,
       after (with_f (apply_boundaries bs w) (with_i (i s + 1) s))
             ([CallStreaming (f s); CallCollision streamed]
              ++ boundary_calls bs w
              ++ reporter_calls (reporters s) (i s + 1) (apply_boundaries bs w))
             m)
  | Raised e =>
      (Raised e,
       after (with_f streamed (with_i (i s + 1) s))
             [CallStreaming (f s); CallCollision streamed] m)
  end.
Proof.
  intros s streamed collided bs.
  unfold step_body, stream_phase, collide_phase, boundary_phase, report_phase.
  run. fold s. fold streamed. fold collided.
  destruct (torch_where _ _ _) as [w|e].
  - fold bs. rewrite boundary_loop. simpl. rewrite reporter_loop. simpl.
    unfold after, with_f, with_i. simpl.
    by rewrite <- !app_assoc.
  - unfold after, with_f, with_i, log_call. simpl. by rewrite <- app_assoc.
Qed.

(** *** Boundaries, then reporters *)

(** C8. In a step that is carried out, the boundaries are applied in list
    order, each to the output of the one before; then every reporter of the
    list is called once, in list order, with the step counter twice and the
    field the last boundary returned. These are, after the calls of streaming
    and collision, all the calls of the step. *)
Theorem step_body_calls m m' :
  step_body m = (Returned tt, m') ->
  let s := self m in
  let streamed := streaming s (f s) in
  let bs := boundaries (flow s) in
  exists w,
    torch_where (no_collision_mask s) streamed (collision s streamed) = Returned w /\
    i (self m') = (i s + 1)%Z /\
    f (self m') = apply_boundaries bs w /\
    calls (world m')
    = calls (world m)
      ++ [CallStreaming (f s); CallCollision streamed]
      ++ boundary_calls bs w
      ++ reporter_calls (reporters s) (i (self m')) (f (self m')).
Proof.
  intros H s streamed bs. rewrite step_body_run in H. fold s streamed bs in H.
  destruct (torch_where _ _ _) as [w|e]; [|done].
  injection H as <-. by exists w.
Qed.

(** *** The loop of [initialize] *)

Lemma after_nil m : after (with_f (f (self m)) (self m)) [] m = m.
Proof. destruct m as [[] []]. unfold after, with_f. simpl. by rewrite app_nil_r. Qed.

Lemma iter_round s n x :
  Nat.iter n (init_round s) (init_round s x) = Nat.iter (S n) (init_round s) x.
Proof. by rewrite <- Nat.iter_succ_r. Qed.

(** Whatever happens in the loop, it leaves the engine as it was but for the
    field, which has gone through some number [j] of rounds of streaming and
    initialization collision, and it has made the calls of these rounds and
    no other. *)
Lemma initialize_loop_frame s0 (tol : V) n :
  forall (k : Z) p_old bound x (l : list call) m0,
  exists j, j <= n /\
    snd (initialize_loop (streaming s0) (init_collision s0) tol n k p_old bound
           (after (with_f x s0) l m0))
    = after (with_f (Nat.iter j (init_round s0) x) s0) (l ++ init_calls s0 j x) m0.
Proof.
  induction n as [|n IH]; intros k p_old bound x l m0.
  - exists 0. split; [done|]. simpl. by rewrite app_nil_r.
  - simpl. run. unfold log_call. simpl. rewrite <- !app_assoc.
    set (y := init_collision s0 (streaming s0 x)).
    change {| self := _; world := _ |} with
      (after (with_f y s0)
             (l ++ [CallStreaming x; CallInitCollision (streaming s0 x)]) m0).
    destruct (pressure_converged _ _ _) as [[]|e].
    + exists 1. split; [lia|]. done.
    + destruct (IH (k + 1)%Z
        (convert_density_lu_to_pressure_pu (units (flow s0)) (rho (lattice s0) y))
        (Some k) y
        (l ++ [CallStreaming x; CallInitCollision (streaming s0 x)]) m0)
        as (j & Hj & E).
      exists (S j). split; [lia|]. rewrite E. subst y.
      change (init_collision s0 (streaming s0 x)) with (init_round s0 x).
      rewrite iter_round. simpl.
      by rewrite <- !app_assoc.
    + exists 1. split; [lia|]. done.
Qed.

(** [initialize] is its warning, its loop, and the read of the loop
    variable. *)
Lemma initialize_unfold (max_num_steps : Z) (tol : V) m :
  let s := self m in
  let mw := snd (warn (snd experimental_warning) (fst experimental_warning) m) in
  let R := initialize_loop (streaming s) (init_collision s) tol
             (Z.to_nat max_num_steps) 0 (scalar vzero) None
             (after (with_f (f s) s) [] mw) in
  initialize max_num_steps tol m =
  match fst R with
  | Returned (Some k) => (Returned k, snd R)
  | Returned None =>
      (Raised (UnboundLocalError "local variable 'i' referenced before assignment"),
       snd R)
  | Raised e => (Raised e, snd R)
  end.
Proof.
  intros s mw R. unfold initialize.
  unfold mbind at 1. unfold M_bind at 1.
  change (warn _ _ m) with (Returned tt, mw).
  unfold mbind at 1. unfold M_bind at 1. unfold get_self at 1.
  change (self mw) with s.
  unfold mbind, M_bind.
  rewrite <- (after_nil mw) at 1. change (self mw) with s.
  change (BGKInitialization _ _ _) with (init_collision s). fold R.
  by destruct R as [[[k|]|e] m'].
Qed.

(** The state [initialize] leaves, whichever way it ends: that of the machine
    once warned, with the field put through some [j] rounds and with the calls
    of these rounds. *)
Lemma initialize_state (max_num_steps : Z) (tol : V) m :
  exists j, j <= Z.to_nat max_num_steps /\
    snd (initialize max_num_steps tol m)
    = after (with_f (init_field (self m) j) (self m))
            (init_calls (self m) j (f (self m)))
            (snd (warn (snd experimental_warning) (fst experimental_warning) m)).
Proof.
  rewrite initialize_unfold.
  set (s := self m). set (mw := snd (warn _ _ m)).
  destruct (initialize_loop_frame s tol (Z.to_nat max_num_steps) 0%Z
              (scalar vzero) None (f s) [] mw) as (j & Hj & E).
  exists j. split; [done|].
  destruct (initialize_loop _ _ _ _ _ _ _ _) as [r m']. simpl in E. subst m'.
  by destruct r as [[k|]|e].
Qed.

(** *** What [initialize] touches *)

(** C10. [initialize] leaves the step counter, the mask, the reporters and the
    objects the engine was built from as they are; only the field changes. The
    field it leaves is the one it found put through some rounds of streaming
    followed by the initialization collision, applied to the whole field with
    no select on the mask; the calls it makes are the streaming and collision
    calls of these rounds, none to a boundary and none to a reporter. *)
Theorem initialize_frame (max_num_steps : Z) (tol : V) m :
  let s := self m in
  let m' := snd (initialize max_num_steps tol m) in
  same_but_f s (self m') /\
  exists j, j <= Z.to_nat max_num_steps /\
    f (self m') = init_field s j /\
    calls (world m') = calls (world m) ++ init_calls s j (f s).
Proof.
  intros s m'. subst m'.
  destruct (initialize_state max_num_steps tol m) as (j & Hj & ->).
  split; [done|]. by exists j.
Qed.

(** *** No round at all *)

(** C9. With [max_num_steps = 0] the loop body does not run, and the read of
    the loop variable raises: no count is returned. The engine is left as it
    was, no call has been made, and the warning has been issued. *)
Theorem initialize_zero (tol : V) m :
  let m' := snd (initialize 0 tol m) in
  fst (initialize 0 tol m)
    = Raised (UnboundLocalError "local variable 'i' referenced before assignment") /\
  self m' = self m /\
  calls (world m') = calls (world m) /\
  files (world m') = files (world m) /\
  warnings (world m') = warnings (world m) ++ [experimental_warning].
Proof.
  intros m'. subst m'. rewrite initialize_unfold. simpl.
  rewrite app_nil_r. split; [done|]. split; [|done].
  by destruct (self m).
Qed.

(** *** The count [initialize] returns *)

Lemma shape_init_field s fs ps n : well_shaped s fs ps -> shape (init_field s n) = fs.
Proof.
  intros Hws. induction n as [|n IH]; [apply Hws|].
  apply (ws_init _ _ _ Hws), (ws_streaming _ _ _ Hws), IH.
Qed.

Lemma shape_init_pressure s fs ps k : well_shaped s fs ps -> shape (init_pressure s k) = ps.
Proof. intros Hws. by apply (ws_pressure _ _ _ Hws), (shape_init_field s fs ps). Qed.

(** On pressures of one shape with at least one point the test returns; so it
    does against the scalar 0. *)
Lemma pressure_converged_returns (p p_old : tensor V) g (tol : V) :
  shape p = g -> shape p_old = g \/ shape p_old = [] -> numel_of g <> 0 ->
  exists b, pressure_converged p p_old tol = Returned b.
Proof.
  intros Hp Hold Hg. unfold pressure_converged, torch_sub, broadcast2.
  assert (broadcast_shapes (shape p) (shape p_old) = Some g) as ->.
  { rewrite Hp. destruct Hold as [->| ->];
      [apply broadcast_shapes_same|apply broadcast_shapes_scalar_r]. }
  simpl. unfold torch_max, torch_abs, tmap. simpl.
  destruct (indices g) as [|ix ixs] eqn:E; [by apply indices_nonempty in E|].
  simpl. by eexists.
Qed.

Lemma test_decided s fs ps (tol : V) k :
  well_shaped s fs ps -> test_accepts s tol k \/ test_rejects s tol k.
Proof.
  intros Hws. unfold test_accepts, test_rejects.
  destruct (pressure_converged_returns (init_pressure s k) (init_previous s k) ps tol)
    as [[] E]; [..|by left|by right].
  - by apply shape_init_pressure with fs.
  - destruct k; [by right|left]. by apply shape_init_pressure with fs.
  - apply Hws.
Qed.

(** The loop entered at iteration [j] with [n] rounds to go, on the field and
    the previous pressure that [j] rounds have produced: it stops at the first
    iteration at which the test comes out true, or runs all [n] rounds. *)
Lemma initialize_loop_spec s fs ps (tol : V) :
  well_shaped s fs ps ->
  forall n j bound (l : list call) m0,
  let R := initialize_loop (streaming s) (init_collision s) tol n (Z.of_nat j)
             (init_previous s j) bound (after (with_f (init_field s j) s) l m0) in
  (exists k, j <= k < j + n /\
     (forall j', j <= j' < k -> test_rejects s tol j') /\
     test_accepts s tol k /\
     R = (Returned (Some (Z.of_nat k)),
          after (with_f (init_field s (S k)) s)
                (l ++ init_calls s (S k - j) (init_field s j)) m0))
  \/
  ((forall j', j <= j' < j + n -> test_rejects s tol j') /\
   R = (Returned (match n with O => bound | S n' => Some (Z.of_nat (j + n')) end),
        after (with_f (init_field s (j + n)) s)
              (l ++ init_calls s n (init_field s j)) m0)).
Proof.
  intros Hws. induction n as [|n IH]; intros j bound l m0 R.
  - right. split; [lia|]. subst R. simpl. by rewrite Nat.add_0_r, app_nil_r.
  - subst R. simpl. run. unfold log_call. simpl. rewrite <- !app_assoc.
    set (x := init_field s j).
    change (init_collision s (streaming s x)) with (init_field s (S j)).
    change (convert_density_lu_to_pressure_pu _ _) with (init_pressure s j).
    match goal with |- context [ {| self := ?a; world := ?b |} ] =>
      change {| self := a; world := b |} with
        (after (with_f (init_field s (S j)) s)
               (l ++ [CallStreaming x; CallInitCollision (streaming s x)]) m0)
    end.
    destruct (test_decided s fs ps tol j Hws) as [Hj|Hj].
    + left. exists j. rewrite Hj.
      split; [lia|]. split; [intros; lia|]. split; [done|].
      by replace (S j - j) with 1 by lia.
    + pose proof Hj as Hrun. unfold test_rejects in Hrun.
      destruct (IH (S j) (Some (Z.of_nat j))
                  (l ++ [CallStreaming x; CallInitCollision (streaming s x)]) m0)
        as [(k & Hk & Hfail & Hhold & E)|(Hfail & E)];
        change (init_previous s (S j)) with (init_pressure s j) in E;
        replace (Z.of_nat (S j)) with (Z.of_nat j + 1)%Z in E by lia.
      * left. exists k. rewrite Hrun, E. split; [lia|]. split.
        { intros j' Hj'. destruct (decide (j' = j)) as [->|]; [done|].
          apply Hfail. lia. }
        split; [done|].
        replace (S k - j) with (S (S k - S j)) by lia.
        by rewrite <- app_assoc.
      * right. rewrite Hrun, E. split.
        { intros j' Hj'. destruct (decide (j' = j)) as [->|]; [done|].
          apply Hfail. lia. }
        replace (S j + n) with (j + S n) by lia.
        rewrite <- app_assoc.
        destruct n as [|n']; [by rewrite Nat.add_0_r|].
        by replace (S j + n') with (j + S n') by lia.
Qed.

(** *** The test of the loop and the criterion *)

Lemma elem_of_indices (sh ix : list nat) : ix ∈ indices sh <-> in_range ix sh.
Proof.
  revert ix. induction sh as [|d sh IH]; intros ix; simpl.
  - rewrite list_elem_of_singleton. split; [intros ->; constructor|by inversion 1].
  - rewrite list_elem_of_bind. split.
    + intros (k & Hin & Hk). apply list_elem_of_fmap in Hin as (ix' & -> & Hix').
      apply elem_of_seq in Hk. constructor; [lia|by apply IH].
    + intros H. inversion H as [|k d' ix' sh' Hk Hix']; subst.
      exists k. split; [|apply elem_of_seq; lia].
      apply list_elem_of_fmap. exists ix'. split; [done|by apply IH].
Qed.

Lemma vlt_foldl_vmax (Hlaws : NumLaws V) (tol : V) vs : forall v,
  vlt (foldl vmax v vs) tol = vlt v tol && forallb (fun a => vlt a tol) vs.
Proof.
  induction vs as [|a vs IH]; intros v; simpl; [by rewrite andb_true_r|].
  by rewrite IH, vlt_vmax, andb_assoc.
Qed.

(** The largest element of a tensor is below a bound exactly when every
    element is. *)
Lemma torch_max_below (Hlaws : NumLaws V) (t : tensor V) (tol : V) :
  numel t <> 0 ->
  exists mx, torch_max t = Returned mx /\
    (vlt mx tol = true <-> forall ix, in_range ix (shape t) -> vlt (item t ix) tol = true).
Proof.
  intros Hnumel. unfold torch_max.
  destruct (indices (shape t)) as [|i0 ixs] eqn:E; [by apply indices_nonempty in E|].
  simpl. eexists. split; [reflexivity|].
  rewrite vlt_foldl_vmax, andb_true_iff, forallb_forall by done.
  split.
  - intros [H0 Hrest] ix Hix. apply elem_of_indices in Hix. rewrite E in Hix.
    apply elem_of_cons in Hix as [->|Hix]; [done|].
    apply Hrest, in_map, list_elem_of_In, Hix.
  - intros H. split.
    + apply H, elem_of_indices. rewrite E. constructor.
    + intros a Ha. apply in_map_iff in Ha as (ix & <- & Hix).
      apply H, elem_of_indices. rewrite E. constructor. by apply list_elem_of_In.
Qed.

(** What the test of the loop computes, on two pressures of one shape and on
    a pressure against the scalar 0. *)
Lemma pressure_converged_tensor (Hlaws : NumLaws V) (p p_old : tensor V) ps (tol : V) :
  shape p = ps -> shape p_old = ps -> numel_of ps <> 0 ->
  exists b, pressure_converged p p_old tol = Returned b /\
    (b = true <-> max_abs_diff_below p p_old tol).
Proof.
  intros Hp Hold Hps. unfold pressure_converged, torch_sub, broadcast2.
  rewrite Hp, Hold, broadcast_shapes_same. unfold mbind, outcome_bind.
  match goal with |- context [torch_max ?t] =>
    destruct (torch_max_below Hlaws t tol) as (mx & -> & Hiff); [done|] end.
  eexists. split; [reflexivity|]. rewrite Hiff. unfold max_abs_diff_below.
  simpl. unfold bcast_item. rewrite Hp, Hold.
  split; intros H ix Hix; specialize (H ix Hix); by rewrite bcast_index_same in *.
Qed.

Lemma pressure_converged_scalar (Hlaws : NumLaws V) (p : tensor V) ps (tol : V) :
  shape p = ps -> numel_of ps <> 0 ->
  exists b, pressure_converged p (scalar vzero) tol = Returned b /\
    (b = true <-> max_abs_below p tol).
Proof.
  intros Hp Hps. unfold pressure_converged, torch_sub, broadcast2.
  rewrite Hp. change (shape (scalar vzero)) with (@nil nat).
  rewrite broadcast_shapes_scalar_r. unfold mbind, outcome_bind.
  match goal with |- context [torch_max ?t] =>
    destruct (torch_max_below Hlaws t tol) as (mx & -> & Hiff); [done|] end.
  eexists. split; [reflexivity|]. rewrite Hiff. unfold max_abs_below.
  simpl. unfold bcast_item. rewrite Hp. simpl.
  split; intros H ix Hix; specialize (H ix Hix); by rewrite bcast_index_same in *.
Qed.

(** Under the law of the numbers the test of the loop decides the
    criterion. *)
Lemma test_criterion (Hlaws : NumLaws V) s fs ps (tol : V) k :
  well_shaped s fs ps ->
  (test_accepts s tol k <-> criterion_holds s tol k) /\
  (test_rejects s tol k <-> criterion_fails s tol k).
Proof.
  intros Hws. unfold test_accepts, test_rejects, criterion_fails.
  assert (exists b, pressure_converged (init_pressure s k) (init_previous s k) tol
                    = Returned b /\ (b = true <-> criterion_holds s tol k))
    as (b & -> & Hiff).
  { destruct k as [|k].
    - apply (pressure_converged_scalar Hlaws _ ps);
        [by apply shape_init_pressure with fs|apply Hws].
    - apply (pressure_converged_tensor Hlaws _ _ ps);
        [by apply shape_init_pressure with fs..|apply Hws]. }
  split; split.
  - intros [= ->]. by apply Hiff.
  - intros H. f_equal. by apply Hiff.
  - intros [= ->] H. by apply Hiff in H.
  - intros H. f_equal. destruct b; [|done]. destruct H. by apply Hiff.
Qed.

(** C5, as the engine has it. With [max_num_steps >= 1] and collaborators
    that keep the shapes of the fields, [initialize] returns a count [k] after
    [k + 1] rounds, at most [max_num_steps]. The criterion has failed at every
    iteration before [k]; it holds at iteration [k], or it has failed there
    too and [k] is [max_num_steps - 1]. The criterion at an iteration is that
    the largest absolute difference between its pressure and the pressure of
    the iteration before is below the tolerance; at iteration 0 the pressure
    is taken against the number 0. *)
Theorem initialize_returns (max_num_steps : Z) (tol : V) m (fs ps : list nat) :
  NumLaws V ->
  (1 <= max_num_steps)%Z ->
  well_shaped (self m) fs ps ->
  exists (k : nat) (m' : machine),
    initialize max_num_steps tol m = (Returned (Z.of_nat k), m') /\
    (Z.of_nat k <= max_num_steps - 1)%Z /\
    f (self m') = init_field (self m) (S k) /\
    calls (world m') = calls (world m) ++ init_calls (self m) (S k) (f (self m)) /\
    (forall j, j < k -> criterion_fails (self m) tol j) /\
    (criterion_holds (self m) tol k \/
     (Z.of_nat k = max_num_steps - 1)%Z /\ criterion_fails (self m) tol k).
Proof.
  intros Hlaws Hmax Hws. rewrite initialize_unfold.
  set (s := self m) in *. set (mw := snd (warn _ _ m)).
  assert (forall j, test_accepts s tol j -> criterion_holds s tol j) as Haccepts
    by (intros j; apply (test_criterion Hlaws s fs ps tol j Hws)).
  assert (forall j, test_rejects s tol j -> criterion_fails s tol j) as Hrejects
    by (intros j; apply (test_criterion Hlaws s fs ps tol j Hws)).
  destruct (Z.to_nat max_num_steps) as [|n] eqn:En; [lia|].
  destruct (initialize_loop_spec s fs ps tol Hws (S n) 0 None [] mw)
    as [(k & Hk & Hfail & Hhold & E)|(Hfail & E)];
    change (init_previous s 0) with (scalar (vzero (V:=V))) in E;
    change (init_field s 0) with (f s) in E;
    change (Z.of_nat 0) with 0%Z in E; rewrite E; simpl.
  - exists k. eexists. split; [reflexivity|]. simpl.
    split; [lia|]. split; [done|]. split; [done|].
    split; [intros; apply Hrejects, Hfail; lia|]. left. by apply Haccepts.
  - exists n. eexists. split; [reflexivity|]. simpl.
    split; [lia|]. split; [done|]. split; [done|].
    split; [intros; apply Hrejects, Hfail; lia|].
    right. split; [lia|]. apply Hrejects, Hfail. lia.
Qed.

(** *** Checkpoints *)

(** C6. After [save_checkpoint(path)], [load_checkpoint(path)] on an engine
    that finds the file as it was written (the same engine, or another one)
    returns and leaves that engine with a field equal to the saved one, in
    shape and in every element, provided unpickling gives back what was
    pickled. *)
Theorem checkpoint_round_trip (filename : string) m (m2 : machine) :
  pickle_faithful ->
  files (world m2) !! filename
    = files (world (snd (save_checkpoint filename m))) !! filename ->
  fst (save_checkpoint filename m) = Returned tt /\
  fst (load_checkpoint filename m2) = Returned tt /\
  same (f (self (snd (load_checkpoint filename m2)))) (f (self m)) /\
  same_but_f (self m2) (self (snd (load_checkpoint filename m2))).
Proof.
  intros Hpickle Hfile. split; [done|].
  unfold save_checkpoint, write_file in Hfile. simpl in Hfile.
  rewrite lookup_insert_eq in Hfile.
  destruct (Hpickle (f (self m))) as (t' & Ht' & Hsame).
  unfold load_checkpoint, read_file. run. rewrite Hfile. simpl. rewrite Ht'.
  simpl. done.
Qed.

(** *** The parts no method assigns to *)

Lemma same_config_trans s1 s2 s3 :
  same_config s1 s2 -> same_config s2 s3 -> same_config s1 s3.
Proof.
  unfold same_config. intros (?&?&?&?&?&?) (?&?&?&?&?&?).
  repeat split; congruence.
Qed.

Lemma config_mask s s' :
  same_config s s' -> no_collision_mask s' = no_collision_mask s.
Proof. by intros (?&?&?&?&?&?). Qed.

Lemma step_body_config m : same_config (self m) (self (snd (step_body m))).
Proof. rewrite step_body_run. simpl. by destruct (torch_where _ _ _). Qed.

Lemma for_range_step_config n m :
  same_config (self m) (self (snd (for_range n step_body m))).
Proof.
  revert m. induction n as [|n IH]; intros m; [done|].
  simpl. unfold mbind, M_bind.
  pose proof (step_body_config m) as Hm.
  destruct (step_body m) as [[[]|e] m1]; [|done].
  eapply same_config_trans; [exact Hm|apply IH].
Qed.

Lemma step_config (num_steps : Z) m :
  same_config (self m) (self (snd (step num_steps m))).
Proof. rewrite step_self. apply for_range_step_config. Qed.

Lemma initialize_config (max_num_steps : Z) (tol : V) m :
  same_config (self m) (self (snd (initialize max_num_steps tol m))).
Proof.
  by destruct (initialize_state max_num_steps tol m) as (j & _ & ->).
Qed.

Lemma load_checkpoint_config (filename : string) m :
  same_config (self m) (self (snd (load_checkpoint filename m))).
Proof.
  unfold load_checkpoint, read_file. run.
  destruct (files (world m) !! filename) as [b|]; [|done]. simpl.
  by destruct (pickle_loads b).
Qed.

(** *** Construction *)

Lemma torch_or_same_shape (a b : tensor bool) g :
  shape a = g -> shape b = g ->
  exists r, torch_or a b = Returned r /\ shape r = g /\
    forall site, in_range site g -> item r site = item a site || item b site.
Proof.
  intros Ha Hb. unfold torch_or, broadcast2.
  rewrite Ha, Hb, broadcast_shapes_same.
  eexists. split; [reflexivity|]. split; [reflexivity|].
  intros site Hsite. simpl. unfold bcast_item.
  by rewrite Ha, Hb, bcast_index_same.
Qed.

Lemma or_of_masks_cons (b : Boundary V) bs site :
  or_of_masks (b :: bs) site
  = (bounce_back b && match mask b with Some m => item m site | None => false end)
    || or_of_masks bs site.
Proof. done. Qed.

Lemma mask_loop_or (bs : list (Boundary V)) g :
  Forall (fun b => bounce_back b = true ->
                   exists mk, mask b = Some mk /\ shape mk = g) bs ->
  forall acc, shape acc = g ->
  exists r, mask_loop bs acc = Returned r /\ shape r = g /\
    forall site, in_range site g ->
      item r site = or_of_masks bs site || item acc site.
Proof.
  induction 1 as [|b bs Hb _ IH]; intros acc Hacc.
  - exists acc. by repeat split.
  - cbn [mask_loop]. unfold bounce_back in Hb.
    destruct (String.eqb (class_name b) "BounceBackBoundary") eqn:Ebb.
    + destruct Hb as (mk & Hmk & Hshape); [done|].
      destruct (torch_or_same_shape mk acc g) as (r1 & Hor & Hr1 & Hitem1); [done..|].
      destruct (IH r1 Hr1) as (r & Hloop & Hr & Hitem).
      exists r. split.
      { unfold getattr_mask. rewrite Hmk. unfold mbind, outcome_bind.
        by rewrite Hor. }
      split; [done|].
      intros site Hsite. rewrite Hitem, Hitem1 by done.
      rewrite or_of_masks_cons. unfold bounce_back. rewrite Ebb, Hmk. simpl.
      by destruct (item mk site), (or_of_masks bs site).
    + destruct (IH acc Hacc) as (r & -> & Hr & Hitem).
      exists r. split; [done|]. split; [done|].
      intros site Hsite. rewrite Hitem by done.
      rewrite or_of_masks_cons. unfold bounce_back. by rewrite Ebb.
Qed.

Lemma or_of_masks_none (bs : list (Boundary V)) site :
  (forall b, b ∈ bs -> bounce_back b = false) -> or_of_masks bs site = false.
Proof.
  intros Hbs. induction bs as [|b bs IH]; [done|].
  rewrite or_of_masks_cons, (Hbs b) by constructor. simpl.
  apply IH. intros b' Hb'. apply Hbs. by constructor.
Qed.

(** C7. A construction that goes through, from boundaries of which the
    bounce-back ones carry a mask of the grid shape, leaves a mask of the grid
    shape that is, at every site, the OR of the masks of the bounce-back
    boundaries of the flow's list; it is false everywhere when the list has no
    bounce-back boundary. No method assigns to it afterwards: [step],
    [initialize], [save_checkpoint] and [load_checkpoint] leave it as it is. *)
Theorem init_mask (fl : Flow V) (la : Lattice V) (co st : tensor V -> tensor V)
    (g0 p u : tensor V) :
  grid fl !! 0 = Some g0 ->
  initial_solution fl (grid fl) = (p, u) ->
  shape p = 1 :: shape g0 ->
  shape u = D la :: shape g0 ->
  (forall t, same (convert_to_tensor_bool la t) t) ->
  (forall b, b ∈ boundaries fl -> bounce_back b = true ->
             exists mk, mask b = Some mk /\ shape mk = shape g0) ->
  exists s : Simulation,
    Simulation__init__ fl la co st = Returned s /\
    shape (no_collision_mask s) = shape g0 /\
    (forall site, in_range site (shape g0) ->
       item (no_collision_mask s) site = or_of_masks (boundaries fl) site) /\
    ((forall b, b ∈ boundaries fl -> bounce_back b = false) ->
     forall site, in_range site (shape g0) -> item (no_collision_mask s) site = false) /\
    (forall (m : machine) (n : Z),
       no_collision_mask (self (snd (step n m))) = no_collision_mask (self m)) /\
    (forall (m : machine) (n : Z) (tol : V),
       no_collision_mask (self (snd (initialize n tol m))) = no_collision_mask (self m)) /\
    (forall (m : machine) (filename : string),
       no_collision_mask (self (snd (save_checkpoint filename m)))
       = no_collision_mask (self m)) /\
    (forall (m : machine) (filename : string),
       no_collision_mask (self (snd (load_checkpoint filename m)))
       = no_collision_mask (self m)).
Proof.
  intros Hgrid Hsol Hp Hu Hconv Hbs.
  unfold Simulation__init__. rewrite Hsol. unfold getitem. rewrite Hgrid. simpl.
  rewrite (bool_decide_eq_true_2 _ Hp), (bool_decide_eq_true_2 _ Hu). simpl.
  destruct (Hconv (zeros_like_bool g0)) as [Hshape0 Hitem0].
  destruct (mask_loop_or (boundaries fl) (shape g0)
              (proj2 (Forall_forall _ _) Hbs)
              (convert_to_tensor_bool la (zeros_like_bool g0)))
    as (r & -> & Hr & Hitem); [done|].
  simpl. eexists. split; [reflexivity|]. simpl.
  assert (forall site, in_range site (shape g0) ->
            item r site = or_of_masks (boundaries fl) site) as Hor.
  { intros site Hsite. rewrite Hitem by done.
    rewrite Hitem0 by (by rewrite Hshape0). simpl. apply orb_false_r. }
  split; [done|]. split; [done|]. split.
  { intros Hnone site Hsite. rewrite Hor by done. by apply or_of_masks_none. }
  split; [intros; apply config_mask, step_config|].
  split; [intros; apply config_mask, initialize_config|].
  split; [done|].
  intros; apply config_mask, load_checkpoint_config.
Qed.

(** C3. When the initial pressure does not have the shape [[1] + grid_shape],
    the constructor raises the assertion's error, whose message names the
    expected and the actual shape, and there is no engine; so it does for a
    velocity that does not have the shape [[D] + grid_shape], once the
    pressure has passed. *)
Theorem init_wrong_shape (fl : Flow V) (la : Lattice V)
    (co st : tensor V -> tensor V) (g0 p u : tensor V) :
  grid fl !! 0 = Some g0 ->
  initial_solution fl (grid fl) = (p, u) ->
  (shape p <> 1 :: shape g0 ->
   Simulation__init__ (Reporter:=Reporter) fl la co st
   = Raised (AssertionError (wrong_pressure (1 :: shape g0) (shape p)))) /\
  (shape p = 1 :: shape g0 -> shape u <> D la :: shape g0 ->
   Simulation__init__ (Reporter:=Reporter) fl la co st
   = Raised (AssertionError (wrong_velocity (D la :: shape g0) (shape u)))) /\
  (shape p <> 1 :: shape g0 \/ shape u <> D la :: shape g0 ->
   forall s, Simulation__init__ (Reporter:=Reporter) fl la co st <> Returned s) /\
  (forall expected actual, exists pre mid post,
     wrong_pressure expected actual
     = LettuceException (pre +:+ repr_list expected +:+ mid
                         +:+ repr_list actual +:+ post)) /\
  (forall expected actual, exists pre mid post,
     wrong_velocity expected actual
     = LettuceException (pre +:+ repr_list expected +:+ mid
                         +:+ repr_list actual +:+ post)).
Proof.
  intros Hgrid Hsol.
  assert (shape p <> 1 :: shape g0 ->
    Simulation__init__ (Reporter:=Reporter) fl la co st
    = Raised (AssertionError (wrong_pressure (1 :: shape g0) (shape p)))) as Hpressure.
  { intros Hp. unfold Simulation__init__. rewrite Hsol. unfold getitem.
    rewrite Hgrid. simpl. by rewrite (bool_decide_eq_false_2 _ Hp). }
  assert (shape p = 1 :: shape g0 -> shape u <> D la :: shape g0 ->
    Simulation__init__ (Reporter:=Reporter) fl la co st
    = Raised (AssertionError (wrong_velocity (D la :: shape g0) (shape u)))) as Hvelocity.
  { intros Hp Hu. unfold Simulation__init__. rewrite Hsol. unfold getitem.
    rewrite Hgrid. simpl.
    by rewrite (bool_decide_eq_true_2 _ Hp), (bool_decide_eq_false_2 _ Hu). }
  split; [done|]. split; [done|]. split.
  { intros Hwrong s.
    destruct (decide (shape p = 1 :: shape g0)) as [Hp|Hp].
    - destruct Hwrong as [|Hu]; [done|]. by rewrite Hvelocity.
    - by rewrite Hpressure. }
  split; intros expected actual.
  - exists "Wrong dimension of initial pressure field. Expected ",
      ", but got ", ".". done.
  - exists "Wrong dimension of initial velocity field.Expected ",
      ", but got ", ".". done.
Qed.

(** ** Further properties of the engine *)

(** *** Steps that return *)

Lemma after_self_nil m : after (self m) [] m = m.
Proof. destruct m as [? []]. unfold after. simpl. by rewrite app_nil_r. Qed.

Lemma reports_boundary_calls (bs : list (Boundary V)) x :
  reports (boundary_calls bs x : list call) = [].
Proof. revert x. induction bs as [|b bs IH]; intros x; [done|]. apply IH. Qed.

Lemma reports_reporter_calls (rs : list Reporter) (k : Z) x :
  reports (reporter_calls rs k x) = (fun r => (r, k, k)) <$> rs.
Proof.
  induction rs as [|r rs IH]; [done|].
  change (reports (reporter_calls (r :: rs) k x))
    with ((r, k, k) :: reports (reporter_calls rs k x)).
  by rewrite IH.
Qed.

Lemma reports_app (l1 l2 : list call) : reports (l1 ++ l2) = reports l1 ++ reports l2.
Proof. apply omap_app. Qed.

(** A loop of [n] rounds that is left normally has counted [n] steps, has
    kept the list of reporters, and has made the reporter calls of [n]
    steps. *)
Lemma for_range_returned n : forall m m',
  for_range n step_body m = (Returned tt, m') ->
  i (self m') = (i (self m) + Z.of_nat n)%Z /\
  reporters (self m') = reporters (self m) /\
  exists l, calls (world m') = calls (world m) ++ l /\
    reports l = expected_reports (reporters (self m)) (i (self m)) n.
Proof.
  induction n as [|n IH]; intros m m' H.
  - injection H as <-. split; [lia|]. split; [done|].
    exists []. by rewrite app_nil_r.
  - simpl in H. unfold mbind, M_bind in H. rewrite step_body_run in H.
    destruct (torch_where _ _ _) as [w|e]; [|done].
    apply IH in H as (Hi & Hr & l & Hl & Hrep).
    simpl in Hi, Hr, Hl.
    change (expected_reports _ _ n)
      with (expected_reports (reporters (self m)) (i (self m) + 1) n) in Hrep.
    split; [lia|]. split; [done|].
    set (s := self m) in *. set (streamed := streaming s (f s)) in *.
    exists (([CallStreaming (f s); CallCollision streamed]
             ++ boundary_calls (boundaries (flow s)) w
             ++ reporter_calls (reporters s) (i s + 1)
                  (apply_boundaries (boundaries (flow s)) w)) ++ l).
    split; [by rewrite Hl, <- app_assoc|].
    rewrite !reports_app, reports_boundary_calls, reports_reporter_calls, Hrep.
    done.
Qed.

(** What a call of [step] that returns has counted and reported. *)
Lemma step_returned_counts (num_steps : Z) m (q : Q) (m' : machine) :
  step num_steps m = (Returned q, m') ->
  i (self m') = (i (self m) + Z.max 0 num_steps)%Z /\
  exists l, calls (world m') = calls (world m) ++ l /\
    reports l = expected_reports (reporters (self m)) (i (self m)) (Z.to_nat num_steps).
Proof.
  intros H. apply step_returned in H as (HR & k & ->).
  destruct (for_range _ _ _) as [r mn] eqn:E. simpl in *. subst r.
  apply for_range_returned in E as (Hi & _ & Hl). split; [lia|done].
Qed.

(** X1. A call [step(n)] that returns has advanced the step counter by [n],
    and by nothing when [n] is negative; the objects the engine was built
    from, its reporters and its mask are as before. *)
Theorem step_counter (num_steps : Z) m (q : Q) (m' : machine) :
  step num_steps m = (Returned q, m') ->
  i (self m') = (i (self m) + Z.max 0 num_steps)%Z /\
  same_config (self m) (self m').
Proof.
  intros H. pose proof (step_config num_steps m) as Hconfig.
  rewrite H in Hconfig. split; [|done].
  by apply step_returned_counts in H as [Hi _].
Qed.

(** X2. The reporter calls of a call [step(n)] that returns are, step after
    step, one call per reporter in the order of the list, each with the
    counter of its step given twice: the counters [i + 1], ..., [i + n]. *)
Theorem step_reports (num_steps : Z) m (q : Q) (m' : machine) :
  step num_steps m = (Returned q, m') ->
  exists l, calls (world m') = calls (world m) ++ l /\
    reports l = expected_reports (reporters (self m)) (i (self m)) (Z.to_nat num_steps).
Proof.
  intros H. by apply step_returned_counts in H as [_ Hl].
Qed.

(** *** What a loop of steps leaves of the world *)

Lemma step_body_after m : exists s' l, snd (step_body m) = after s' l m.
Proof. rewrite step_body_run. simpl. destruct (torch_where _ _ _); by eexists _, _. Qed.

(** The loop changes the engine and adds to the call log; the timer, the
    warnings and the files are as before. *)
Lemma for_range_after n : forall m,
  exists s' l, snd (for_range n step_body m) = after s' l m.
Proof.
  induction n as [|n IH]; intros m.
  - exists (self m), []. simpl. by rewrite after_self_nil.
  - simpl. unfold mbind, M_bind.
    destruct (step_body_after m) as (s1 & l1 & E1).
    destruct (step_body m) as [[[]|e] m1]; simpl in E1; subst m1.
    + destruct (IH (after s1 l1 m)) as (s2 & l2 & ->).
      exists s2, (l1 ++ l2). apply after_after.
    + by exists s1, l1.
Qed.


(** X4. When, after [k] rounds that went through, [torch.where] raises in the
    next round, [step] raises that error. Nothing is rolled back: the counter
    counts the failed round, the field is the one streaming returned in it, the
    calls of streaming and collision of that round are the last ones made (no
    boundary, no reporter), and the timer has not been read a second time. *)
Theorem step_failure (num_steps : Z) (k : nat) m (mk : machine) (e : exn) :
  (Z.of_nat k < num_steps)%Z ->
  for_range k step_body m = (Returned tt, mk) ->
  let s := self mk in
  let streamed := streaming s (f s) in
  torch_where (no_collision_mask s) streamed (collision s streamed) = Raised e ->
  step num_steps m
  = (Raised e,
     retick (S (ticks (world m)))
       (after (with_f streamed (with_i (i s + 1) s))
              [CallStreaming (f s); CallCollision streamed] mk)).
Proof.
  intros Hk Hloop s streamed Hwhere.
  assert (for_range (Z.to_nat num_steps) step_body m
          = (Raised e,
             after (with_f streamed (with_i (i s + 1) s))
                   [CallStreaming (f s); CallCollision streamed] mk)) as E.
  { replace (Z.to_nat num_steps) with (k + S (Z.to_nat num_steps - S k)) by lia.
    rewrite for_range_add. simpl. unfold mbind, M_bind.
    rewrite Hloop, step_body_run. fold s. fold streamed. by rewrite Hwhere. }
  rewrite step_unfold, E. done.
Qed.

(** X5. The rate a call of [step] returns is [num_steps * points / 1e6]
    divided by the difference of two readings of the timer, one taken before
    the loop and one after it; [points] is the element count of the density of
    the final field. It is positive when at least one step was asked for, the
    density has an element and the timer has advanced. *)
Theorem step_rate (num_steps : Z) m (q : Q) (m' : machine) :
  step num_steps m = (Returned q, m') ->
  let t := ticks (world m) in
  let seconds := (clock (world m) (S t) - clock (world m) t)%Q in
  let points := numel (rho (lattice (self m')) (f (self m'))) in
  ticks (world m') = S (S t) /\
  ~ (seconds == 0)%Q /\
  q = (inject_Z (num_steps * Z.of_nat points) / inject_Z 1000000 / seconds)%Q /\
  ((1 <= num_steps)%Z -> points <> 0 ->
   (clock (world m) t < clock (world m) (S t))%Q -> (0 < q)%Q).
Proof.
  intros H t seconds points. subst points.
  rewrite step_unfold in H. fold t in H.
  destruct (for_range_after (Z.to_nat num_steps) m) as (s' & l & E).
  destruct (for_range _ _ _) as [r mn]. simpl in E, H. subst mn.
  destruct r as [[]|e]; [|done].
  unfold true_div in H. simpl in H. fold seconds in H.
  destruct (Qeq_bool seconds 0) eqn:Hsec; [done|].
  injection H as <- <-. simpl.
  split; [done|]. split; [by apply Qeq_bool_neq|]. split; [done|].
  intros Hn Hpoints Hclock.
  apply Qlt_shift_div_l; [|rewrite Qmult_0_l].
  - unfold seconds, Qminus. by apply (Qlt_minus_iff (clock (world m) t)).
  - apply Qlt_shift_div_l; [done|]. rewrite Qmult_0_l.
    change 0%Q with (inject_Z 0). rewrite <- Zlt_Qlt. nia.
Qed.

(** *** The collision phase under a mask that is constant *)

Lemma in_range_cons_inv ix q g :
  in_range ix (q :: g) -> exists d site, ix = d :: site /\ d < q /\ in_range site g.
Proof. intros H. inversion H; subst. by eexists _, _. Qed.

(** X6. With a mask that is false at every site (no bounce-back boundary) the
    collision phase leaves a field equal to what the collision operator
    returned; with a mask that is true at every site it leaves a field equal
    to the one it found, and the collision operator has been called to no
    effect. *)
Theorem collide_phase_constant_mask m (q : nat) (g : list nat) (b : bool) :
  let s := self m in
  shape (no_collision_mask s) = g ->
  shape (f s) = q :: g ->
  shape (collision s (f s)) = q :: g ->
  constant_mask b (no_collision_mask s) ->
  exists m',
    collide_phase m = (Returned tt, m') /\
    calls (world m') = calls (world m) ++ [CallCollision (f s)] /\
    same (f (self m')) (if b then f s else collision s (f s)).
Proof.
  intros s Hmask Hf Hc Hb.
  destruct (torch_where_field (no_collision_mask s) (f s) (collision s (f s)) q g)
    as (w & Hw & Hshape & Hsel); [done..|].
  unfold collide_phase. run. fold s. rewrite Hw. simpl.
  eexists. split; [reflexivity|]. simpl. split; [done|].
  split.
  - rewrite Hshape. by destruct b.
  - rewrite Hshape. intros ix Hix.
    apply in_range_cons_inv in Hix as (d & site & -> & Hd & Hsite).
    rewrite Hsel, Hb by (by rewrite ?Hmask). by destruct b.
Qed.

(** *** Checkpoints: failures and the counter *)

(** X7. [load_checkpoint] assigns the field last, and only when opening,
    reading and unpickling have gone through. However it ends, all of the
    engine but [f], and the files, are as before. When it raises, whatever the
    error, [f] is as before too. When it returns, the file was there and [f]
    is what its content unpickles to. *)
Theorem load_checkpoint_outcome (filename : string) m (r : outcome unit)
    (m' : machine) :
  load_checkpoint filename m = (r, m') ->
  same_but_f (self m) (self m') /\
  world m' = world m /\
  match r with
  | Raised _ => f (self m') = f (self m)
  | Returned _ =>
      exists b, files (world m) !! filename = Some b /\
                pickle_loads b = Returned (f (self m'))
  end.
Proof.
  unfold load_checkpoint, read_file. run.
  destruct (files (world m) !! filename) as [b|] eqn:Hfile.
  - simpl. destruct (pickle_loads b) as [t|e'] eqn:Hload.
    + intros [= <- <-]. repeat split; try done. by exists b.
    + intros [= <- <-]. done.
  - intros [= <- <-]. done.
Qed.

(** A file that holds a pickled field is loaded as a field equal to it. *)
Lemma load_checkpoint_found (filename : string) m (t : tensor V) :
  pickle_faithful ->
  files (world m) !! filename = Some (pickle_dumps t) ->
  exists t', same t' t /\
    load_checkpoint filename m
    = (Returned tt, {| self := with_f t' (self m); world := world m |}).
Proof.
  intros Hpickle Hfile. destruct (Hpickle t) as (t' & Ht' & Hsame).
  exists t'. split; [done|].
  unfold load_checkpoint, read_file. run. rewrite Hfile. simpl. by rewrite Ht'.
Qed.

Lemma step_files (num_steps : Z) m :
  files (world (snd (step num_steps m))) = files (world m).
Proof.
  rewrite step_unfold.
  destruct (for_range_after (Z.to_nat num_steps) m) as (s' & l & E).
  destruct (for_range _ _ _) as [[[]|e] mn]; simpl in *; subst mn; [|done].
  by rewrite true_div_state.
Qed.

(** X8. A checkpoint does not hold the step counter. Saving, stepping [n]
    times and loading restores a field equal to the saved one, while the
    counter stays where the [n] steps have brought it. *)
Theorem checkpoint_keeps_counter (filename : string) (num_steps : Z) m
    (q : Q) (m2 : machine) :
  pickle_faithful ->
  step num_steps (snd (save_checkpoint filename m)) = (Returned q, m2) ->
  fst (load_checkpoint filename m2) = Returned tt /\
  same (f (self (snd (load_checkpoint filename m2)))) (f (self m)) /\
  i (self (snd (load_checkpoint filename m2))) = (i (self m) + Z.max 0 num_steps)%Z.
Proof.
  intros Hpickle Hstep.
  pose proof (step_files num_steps (snd (save_checkpoint filename m))) as Hfiles.
  rewrite Hstep in Hfiles. simpl in Hfiles.
  apply step_returned_counts in Hstep as [Hi _]. simpl in Hi.
  destruct (load_checkpoint_found filename m2 (f (self m)) Hpickle)
    as (t' & Hsame & ->).
  { rewrite Hfiles. apply lookup_insert_eq. }
  done.
Qed.

(** *** [initialize] at its edges *)

(** X10. A zero or negative [max_num_steps] is not rejected: the loop has no
    round, the read of the loop variable raises [UnboundLocalError], and
    nothing has happened but the warning. *)
Theorem initialize_nonpositive (max_num_steps : Z) (tol : V) m :
  (max_num_steps <= 0)%Z ->
  fst (initialize max_num_steps tol m)
    = Raised (UnboundLocalError "local variable 'i' referenced before assignment") /\
  self (snd (initialize max_num_steps tol m)) = self m /\
  calls (world (snd (initialize max_num_steps tol m))) = calls (world m) /\
  warnings (world (snd (initialize max_num_steps tol m)))
    = warnings (world m) ++ [experimental_warning].
Proof.
  intros Hmax. rewrite initialize_unfold.
  replace (Z.to_nat max_num_steps) with 0 by lia. simpl.
  rewrite app_nil_r. split; [done|]. split; [|done].
  by destruct (self m).
Qed.

(** A round in which the test of the pressures raises ends the loop with that
    error, after the field of the round has been stored. *)
Lemma initialize_loop_raises s0 (tol : V) n (k : Z) p_old bound x
    (l : list call) (m0 : machine) (e : exn) :
  pressure_converged (pressure_of s0 (init_round s0 x)) p_old tol = Raised e ->
  initialize_loop (streaming s0) (init_collision s0) tol (S n) k p_old bound
    (after (with_f x s0) l m0)
  = (Raised e,
     after (with_f (init_round s0 x) s0) (l ++ init_calls s0 1 x) m0).
Proof.
  intros Hp. simpl. run. unfold log_call. simpl. rewrite <- !app_assoc.
  change (init_collision s0 (streaming s0 x)) with (init_round s0 x).
  change (convert_density_lu_to_pressure_pu _ _)
    with (pressure_of s0 (init_round s0 x)).
  by rewrite Hp.
Qed.

(** X11. On a grid without points the first round already fails: the pressure
    has no element and [torch.max] raises. The field has by then been
    streamed and collided once, and stays so. *)
Theorem initialize_empty_grid (max_num_steps : Z) (tol : V) m (g : list nat) :
  let s := self m in
  (1 <= max_num_steps)%Z ->
  numel_of g = 0 ->
  shape (pressure_of s (init_field s 1)) = g ->
  exists msg,
    fst (initialize max_num_steps tol m) = Raised (RuntimeError msg) /\
    f (self (snd (initialize max_num_steps tol m))) = init_field s 1 /\
    calls (world (snd (initialize max_num_steps tol m)))
      = calls (world m) ++ init_calls s 1 (f s).
Proof.
  intros s Hmax Hg Hp.
  assert (exists msg, pressure_converged (pressure_of s (init_round s (f s)))
                        (scalar vzero) tol = Raised (RuntimeError msg)) as [msg Hraise].
  { unfold pressure_converged, torch_sub, broadcast2.
    change (init_round s (f s)) with (init_field s 1).
    rewrite Hp. change (shape (scalar vzero)) with (@nil nat).
    rewrite broadcast_shapes_scalar_r.
    unfold mbind, outcome_bind, torch_max, torch_abs, tmap. cbn [shape].
    assert (indices g = []) as ->.
    { apply length_zero_iff_nil. by rewrite length_indices. }
    by eexists. }
  exists msg. rewrite initialize_unfold. fold s.
  destruct (Z.to_nat max_num_steps) as [|n] eqn:En; [lia|].
  rewrite (initialize_loop_raises s tol n 0 (scalar vzero) None (f s) [] _ _ Hraise).
  done.
Qed.

(** X12. With [max_num_steps = 1] the count returned is 0 whatever the
    tolerance: one round is made, and the result does not tell whether the
    criterion held. *)
Theorem initialize_one_round (tol : V) m (fs ps : list nat) :
  well_shaped (self m) fs ps ->
  fst (initialize 1 tol m) = Returned 0%Z /\
  f (self (snd (initialize 1 tol m))) = init_field (self m) 1.
Proof.
  intros Hws. rewrite initialize_unfold.
  set (s := self m) in *. set (mw := snd (warn _ _ m)).
  change (Z.to_nat 1) with 1.
  destruct (initialize_loop_spec s fs ps tol Hws 1 0 None [] mw)
    as [(k & Hk & _ & _ & E)|(_ & E)];
    change (init_previous s 0) with (scalar (vzero (V:=V))) in E;
    change (init_field s 0) with (f s) in E;
    change (Z.of_nat 0) with 0%Z in E; rewrite E; simpl.
  - by replace k with 0 by lia.
  - done.
Qed.

(** Two runs of the loop on engines that agree on field, flow and lattice. *)
Lemma initialize_loop_agree (st co : tensor V -> tensor V) (tol : V) n :
  forall (k : Z) p_old bound (ma mb : machine),
  f (self ma) = f (self mb) ->
  flow (self ma) = flow (self mb) ->
  lattice (self ma) = lattice (self mb) ->
  fst (initialize_loop st co tol n k p_old bound ma)
  = fst (initialize_loop st co tol n k p_old bound mb) /\
  f (self (snd (initialize_loop st co tol n k p_old bound ma)))
  = f (self (snd (initialize_loop st co tol n k p_old bound mb))).
Proof.
  induction n as [|n IH]; intros k p_old bound ma mb Hf Hflow Hlattice; [done|].
  simpl. run. rewrite Hf, Hflow, Hlattice.
  destruct (pressure_converged _ _ _) as [[]|e]; [done| |done].
  by apply IH.
Qed.

(** X13. [initialize] looks at the engine's field, flow, lattice and streaming
    only. Its result and the field it leaves are the same for two engines
    that agree on these, whatever their collision operators, masks, counters
    and reporters are. *)
Theorem initialize_reads (max_num_steps : Z) (tol : V) (ma mb : machine) :
  f (self ma) = f (self mb) ->
  flow (self ma) = flow (self mb) ->
  lattice (self ma) = lattice (self mb) ->
  streaming (self ma) = streaming (self mb) ->
  fst (initialize max_num_steps tol ma) = fst (initialize max_num_steps tol mb) /\
  f (self (snd (initialize max_num_steps tol ma)))
  = f (self (snd (initialize max_num_steps tol mb))).
Proof.
  intros Hf Hflow Hlattice Hstreaming.
  unfold initialize, warn. run. rewrite Hflow, Hlattice, Hstreaming.
  match goal with |- context [initialize_loop ?st ?co _ ?n ?k ?p ?b ?x] =>
    match goal with |- context [initialize_loop st co _ n k p b ?y] =>
      lazymatch x with y => fail | _ =>
        destruct (initialize_loop_agree st co tol n k p b x y) as [E1 E2];
          [done..|];
        destruct (initialize_loop st co tol n k p b x) as [ra ma'];
        destruct (initialize_loop st co tol n k p b y) as [rb mb']
      end
    end
  end.
  simpl in *. subst rb. by destruct ra as [[]|].
Qed.

(** *** The constructor *)

(** The loop that builds the mask raises only at a bounce-back boundary:
    one without a mask, or one whose mask does not broadcast against the mask
    built so far. *)
Lemma mask_loop_raises (bs : list (Boundary V)) : forall acc (e : exn),
  mask_loop bs acc = Raised e ->
  exists b, b ∈ bs /\ bounce_back b = true /\
    (mask b = None /\ e = AttributeError "object has no attribute 'mask'" \/
     exists mk, mask b = Some mk /\ e = shape_error).
Proof.
  induction bs as [|b bs IH]; intros acc e H; [done|].
  cbn [mask_loop] in H.
  destruct (String.eqb (class_name b) "BounceBackBoundary") eqn:Ebb.
  - unfold getattr_mask in H. destruct (mask b) as [mk|] eqn:Hmk.
    + unfold mbind, outcome_bind in H.
      destruct (torch_or mk acc) as [r|e'] eqn:Hor.
      * apply IH in H as (b' & Hb' & Hrest). exists b'. split; [by constructor|done].
      * injection H as <-. exists b. split; [constructor|]. split; [done|].
        right. exists mk. split; [done|].
        unfold torch_or, broadcast2 in Hor.
        destruct (broadcast_shapes _ _); congruence.
    + injection H as <-. exists b. split; [constructor|]. split; [done|]. by left.
  - apply IH in H as (b' & Hb' & Hrest). exists b'. split; [by constructor|done].
Qed.

(** X14. The errors that can leave the constructor, in the order in which it
    checks: [IndexError] on a flow without grid arrays; the assertion on the
    pressure; the assertion on the velocity; and, from the loop over the
    boundaries, [AttributeError] for a bounce-back boundary without a mask or
    the shape error of [|] for one whose mask does not fit. *)
Theorem init_raises (fl : Flow V) (la : Lattice V) (co st : tensor V -> tensor V)
    (e : exn) :
  Simulation__init__ (Reporter:=Reporter) fl la co st = Raised e ->
  let p := fst (initial_solution fl (grid fl)) in
  let u := snd (initial_solution fl (grid fl)) in
  grid fl = [] /\ e = IndexError "list index out of range" \/
  exists g0, grid fl !! 0 = Some g0 /\
    (shape p <> 1 :: shape g0 /\
     e = AssertionError (wrong_pressure (1 :: shape g0) (shape p)) \/
     shape p = 1 :: shape g0 /\ shape u <> D la :: shape g0 /\
     e = AssertionError (wrong_velocity (D la :: shape g0) (shape u)) \/
     shape p = 1 :: shape g0 /\ shape u = D la :: shape g0 /\
     exists b, b ∈ boundaries fl /\ bounce_back b = true /\
       (mask b = None /\ e = AttributeError "object has no attribute 'mask'" \/
        exists mk, mask b = Some mk /\ e = shape_error)).
Proof.
  unfold Simulation__init__.
  destruct (initial_solution fl (grid fl)) as [p u]. simpl fst. simpl snd.
  unfold getitem.
  destruct (grid fl) as [|g0 gs] eqn:Hgrid; simpl.
  { intros [= <-]. by left. }
  intros H. right. exists g0. split; [done|].
  destruct (decide (shape p = 1 :: shape g0)) as [Hp|Hp].
  - rewrite (bool_decide_eq_true_2 _ Hp) in H. simpl in H.
    destruct (decide (shape u = D la :: shape g0)) as [Hu|Hu].
    + rewrite (bool_decide_eq_true_2 _ Hu) in H. simpl in H.
      right. right. split; [done|]. split; [done|].
      destruct (mask_loop _ _) as [r|e'] eqn:Hloop; [done|].
      injection H as <-. by apply mask_loop_raises in Hloop.
    + rewrite (bool_decide_eq_false_2 _ Hu) in H. simpl in H.
      injection H as <-. right. by left.
  - rewrite (bool_decide_eq_false_2 _ Hp) in H. simpl in H.
    injection H as <-. by left.
Qed.

Lemma expected_reports_nil (i0 : Z) n :
  expected_reports (@nil Reporter) i0 n = [].
Proof. revert i0. induction n as [|n IH]; intros i0; [done|]. simpl. apply IH. Qed.

(** What the constructor has assigned when it returns. *)
Lemma init_returns_fresh (fl : Flow V) (la : Lattice V)
    (co st : tensor V -> tensor V) (s : Simulation) :
  Simulation__init__ fl la co st = Returned s ->
  i s = 0%Z /\ reporters s = [] /\
  flow s = fl /\ lattice s = la /\ collision s = co /\ streaming s = st /\
  f s = equilibrium la
          (convert_to_tensor la
             (convert_pressure_pu_to_density_lu (units fl)
                (fst (initial_solution fl (grid fl)))))
          (convert_to_tensor la
             (convert_to_tensor la
                (convert_velocity_to_lu (units fl)
                   (snd (initial_solution fl (grid fl)))))).
Proof.
  intros Hinit. unfold Simulation__init__ in Hinit.
  destruct (initial_solution fl (grid fl)) as [p u].
  destruct (getitem (grid fl) 0) as [g0|]; [|done].
  unfold mbind, outcome_bind in Hinit.
  destruct (assert _ _); [|done]. destruct (assert _ _); [|done].
  destruct (mask_loop _ _); [|done].
  by injection Hinit as <-.
Qed.

(** X15. An engine as the constructor returns it starts at counter 0 with no
    reporter, on the equilibrium field of the converted initial solution and
    with the objects it was given. Stepped [n] times before any reporter is
    added, it stands at counter [n], at 0 for a negative [n], and no reporter
    call has been made. *)
Theorem fresh_engine_steps (fl : Flow V) (la : Lattice V)
    (co st : tensor V -> tensor V) (s : Simulation)
    (w : World V Reporter Blob) (num_steps : Z) (q : Q) (m' : machine) :
  Simulation__init__ fl la co st = Returned s ->
  step num_steps {| self := s; world := w |} = (Returned q, m') ->
  let p := fst (initial_solution fl (grid fl)) in
  let u := snd (initial_solution fl (grid fl)) in
  (i s = 0%Z /\ reporters s = [] /\
   flow s = fl /\ lattice s = la /\ collision s = co /\ streaming s = st /\
   f s = equilibrium la
           (convert_to_tensor la (convert_pressure_pu_to_density_lu (units fl) p))
           (convert_to_tensor la
              (convert_to_tensor la (convert_velocity_to_lu (units fl) u)))) /\
  i (self m') = Z.max 0 num_steps /\
  exists l, calls (world m') = calls w ++ l /\ reports l = [].
Proof.
  intros Hinit Hstep p u. subst p u.
  pose proof (init_returns_fresh _ _ _ _ _ Hinit) as Hfresh.
  split; [done|]. destruct Hfresh as (Hi & Hr & _).
  apply step_returned_counts in Hstep as (Hcount & l & Hl & Hrep).
  simpl in Hcount, Hl, Hrep. split; [lia|].
  exists l. split; [done|]. by rewrite Hrep, Hr, expected_reports_nil.
Qed.

(** ** The command line *)

Lemma precisions_lookup (precision : string) :
  precisions !! precision
  = if decide (precision = "half") then Some torch_half
    else if decide (precision = "single") then Some torch_float
    else if decide (precision = "double") then Some torch_double
    else None.
Proof.
  unfold precisions. cbn [list_to_map foldr uncurry fst snd].
  repeat case_decide; subst;
    rewrite ?lookup_insert_eq, ?lookup_insert_ne, ?lookup_empty by done; done.
Qed.

(** The cases of [main] once CUDA is settled: by what [torch.device] gives
    and by the precision. *)
Ltac main_cases Hknown :=
  destruct (_ : outcome torch_device) as [device|e]; simpl;
  repeat case_decide; subst; simpl;
  repeat split; try done; try tauto;
  try (intros; eexists _, _; done);
  try (intros (_ & (? & ?) & _); done);
  try (intros (_ & _ & [|[|]]); done);
  try (by eexists);
  try (intros; simplify_eq; done);
  try (intros; exfalso;
       match goal with H : _ ∉ _ |- _ => apply H, Hknown; tauto end).

(** X16. [main] goes through exactly when CUDA is available or not asked
    for, [torch.device] returns a device for ["cuda:<gpu_id>"], respectively
    ["cpu"], and the precision is one of [half], [single], [double]. It then
    has set all three entries of [ctx.obj], the device being the one
    [torch.device] returned, and has printed nothing. Otherwise the three
    entries are still [None]: a missing CUDA comes first and is the one case
    in which a line is printed, an error of [torch.device] comes next and is
    passed on, an unknown precision comes last. *)
Theorem main_outcome (cuda_is_available : bool)
    (torch_device_of : string -> outcome torch_device)
    (cuda : bool) (gpu_id : Z) (precision : string) (lov : bool) :
  let r := main cuda_is_available torch_device_of cuda gpu_id precision lov in
  let known := precision ∈ ["half"; "single"; "double"] in
  let spec := if cuda then "cuda:" +:+ pretty gpu_id else "cpu" in
  let present := cuda = true -> cuda_is_available = true in
  (fst (fst r) = Done tt
   <-> present /\ (exists device, torch_device_of spec = Returned device) /\ known) /\
  (fst (fst r) = Done tt ->
   exists device dtype,
     torch_device_of spec = Returned device /\
     precisions !! precision = Some dtype /\
     snd (fst r)
     = {| obj_device := Some device; obj_dtype := Some dtype; obj_lov := Some lov |} /\
     snd r = []) /\
  (fst (fst r) <> Done tt ->
   snd (fst r) = {| obj_device := None; obj_dtype := None; obj_lov := None |}) /\
  (cuda = true -> cuda_is_available = false ->
   fst (fst r) = Failed Abort /\ snd r = ["CUDA not found."]) /\
  (present -> forall e, torch_device_of spec = Raised e ->
   fst (fst r) = Failed (TorchError e) /\ snd r = []) /\
  (present -> forall device, torch_device_of spec = Returned device -> ~ known ->
   fst (fst r) = Failed (KeyError precision) /\ snd r = []).
Proof.
  intros r known spec present. subst r known spec present.
  unfold main, main_finish. rewrite precisions_lookup.
  assert (forall x : string, x ∈ ["half"; "single"; "double"]
            <-> x = "half" \/ x = "single" \/ x = "double") as Hknown.
  { intros x. rewrite !elem_of_cons, elem_of_nil. tauto. }
  rewrite Hknown.
  destruct cuda, cuda_is_available; simpl.
  - main_cases Hknown.
  - repeat split; try done;
      try (intros (Hcuda & _); by specialize (Hcuda eq_refl));
      try (intros; exfalso;
           match goal with
           | Hcuda : true = true -> false = true |- _ => by specialize (Hcuda eq_refl)
           end).
  - main_cases Hknown.
  - main_cases Hknown.
Qed.

Context {Tau : Type} `{!Package V Tau}.

(** X17. When [benchmark] returns, its exit code is 0 and it has echoed one
    line, built from the number of steps, the dtype and the rate [step]
    returned; for the dtypes of [half], [single] and [double] the line says
    16, 32 and 64 bit. No reporter has been called, and the option
    [--profile] makes no difference. *)
Theorem benchmark_returns (obj : context_obj) (steps resolution : Z)
    (profile : bool) (w w' : World V Reporter Blob) (code : Z) (out : list string) :
  benchmark obj steps resolution profile w = (Returned code, out, w') ->
  code = 0%Z /\
  (exists mlups, out = [benchmark_line steps (obj_dtype obj) mlups]) /\
  (forall d mlups,
     benchmark_line steps (Some d) mlups
     = "Finished " +:+ pretty steps +:+ " steps in " +:+ bits d
       +:+ " bit precision. MLUPS: " +:+ format_10_2f mlups) /\
  (exists l, calls w' = calls w ++ l /\ reports l = []) /\
  benchmark obj steps resolution (negb profile) w = (Returned code, out, w').
Proof.
  intros H. split; [|split; [|split; [|split]]].
  - unfold benchmark in H.
    destruct (benchmark_simulation _ _) as [s|e]; [|done].
    destruct (step _ _) as [[mlups|e] m]; [|done].
    by injection H as <- _ _.
  - unfold benchmark in H.
    destruct (benchmark_simulation _ _) as [s|e]; [|done].
    destruct (step _ _) as [[mlups|e] m]; [|done].
    injection H as _ <- _. by exists mlups.
  - by intros [] mlups.
  - unfold benchmark in H.
    destruct (benchmark_simulation _ _) as [s|e] eqn:Hinit; [|done].
    destruct (step _ _) as [[mlups|e] m] eqn:Hstep; [|done].
    injection H as _ _ <-.
    apply init_returns_fresh in Hinit as (_ & Hr & _).
    apply step_returned_counts in Hstep as (_ & l & Hl & Hrep).
    simpl in Hl, Hrep. exists l. split; [done|].
    by rewrite Hrep, Hr, expected_reports_nil.
  - by rewrite <- H.
Qed.


End Properties.

(** ** The small engine, run *)

Section Run.
Import Demo.

(** The select of C1 on the small engine: the wall site keeps what streaming
    brought there, the other site is collided. *)
Lemma step_collision_select_witness :
  shape (no_collision_mask the_simulation) = [2] /\
  shape (the_streaming (f the_simulation)) = [3; 2] /\
  shape (the_collision (the_streaming (f the_simulation))) = [3; 2] /\
  exists m1,
    step_body the_machine = (boundary_phase;; report_phase) m1 /\
    shape (f (self m1)) = [3; 2] /\
    forall d site, d < 3 -> in_range site [2] ->
      item (f (self m1)) (d :: site)
      = if item wall_mask site
        then item (the_streaming (f the_simulation)) (d :: site)
        else item (the_collision (the_streaming (f the_simulation))) (d :: site).
Proof.
  split; [reflexivity|]. split; [reflexivity|]. split; [reflexivity|].
  destruct (step_collision_select the_machine 3 [2]) as (m1 & _ & Hstep & Hshape & Hsel);
    [reflexivity..|].
  exists m1. split; [exact Hstep|]. split; [exact Hshape|exact Hsel].
Defined.

Example step_once_elements :
  elements (f (self (stepped 1 the_machine))) = [315; 336; 321; 336; 324; 342]%Z.
Proof. reflexivity. Qed.

(** A call of [step] that returns, in terms of [rate] and [stepped]. *)
Lemma step_stepped (n : Z) (m : machine Z string (tensor Z)) :
  returned (fst (step n m)) = true ->
  step n m = (Returned (rate n m), stepped n m).
Proof.
  unfold rate, stepped. by destruct (step n m) as [[q|e] m'].
Qed.

Lemma step_body_returned (m : machine Z string (tensor Z)) :
  returned (fst (step_body m)) = true ->
  step_body m = (Returned tt, snd (step_body m)).
Proof. by destruct (step_body m) as [[[]|e] m']. Qed.

(** One step and then two, against three at once. *)
Lemma step_then_step_witness :
  f (self (stepped (1 + 2) the_machine))
    = f (self (stepped 2 (stepped 1 the_machine))) /\
  i (self (stepped (1 + 2) the_machine))
    = i (self (stepped 2 (stepped 1 the_machine))).
Proof.
  apply (step_then_step 1 2 the_machine
           (rate 1 the_machine) (rate 2 (stepped 1 the_machine))
           (stepped 1 the_machine) (stepped 2 (stepped 1 the_machine)));
    [lia | lia | apply step_stepped; vm_compute; reflexivity
     | apply step_stepped; vm_compute; reflexivity].
Defined.

(** The constructor on a pressure, and on a velocity, of the wrong shape. *)
Lemma init_wrong_shape_witness :
  Simulation__init__ (Reporter:=string) bad_pressure_flow the_lattice
    the_collision the_streaming
  = Raised (AssertionError (wrong_pressure [1; 2] [2])) /\
  Simulation__init__ (Reporter:=string) bad_velocity_flow the_lattice
    the_collision the_streaming
  = Raised (AssertionError (wrong_velocity [1; 2] [2; 2])).
Proof.
  split.
  - destruct (init_wrong_shape (Reporter:=string) bad_pressure_flow the_lattice
                the_collision the_streaming the_grid_array
                (constant [2] 5) the_velocity) as (Hp & _);
      [reflexivity | reflexivity |].
    apply Hp. discriminate.
  - destruct (init_wrong_shape (Reporter:=string) bad_velocity_flow the_lattice
                the_collision the_streaming the_grid_array
                the_pressure (constant [2; 2] 0)) as (_ & Hu & _);
      [reflexivity | reflexivity |].
    apply Hu; [reflexivity | discriminate].
Defined.

Example init_wrong_shape_message :
  wrong_pressure [1; 2] [2]
  = LettuceException
      "Wrong dimension of initial pressure field. Expected [1, 2], but got [2].".
Proof. reflexivity. Qed.

(** C4 as it was claimed fails on a timer that gives the same reading twice:
    [step(0)] then raises and returns no rate. *)
Lemma step_zero_stopped_clock :
  fst (step 0 stopped_machine) = Raised (ZeroDivisionError "float division by zero") /\
  ~ exists q : Q, fst (step 0 stopped_machine) = Returned q.
Proof.
  split; [reflexivity|]. intros [q Hq]. discriminate Hq.
Qed.

Example step_zero_running_clock :
  fst (step 0 the_machine) = Returned (inject_Z 0 / inject_Z 1000000 / (1 - 0))%Q.
Proof. reflexivity. Qed.

(** The integers obey the law of the numbers. *)
Lemma Z_num_laws : NumLaws Z.
Proof.
  split. intros a b t. simpl.
  destruct (Z.ltb_spec (Z.max a b) t), (Z.ltb_spec a t), (Z.ltb_spec b t);
    simpl; try reflexivity; lia.
Defined.

(** The small engine keeps shapes: fields of shape [3; 2], pressures of shape
    [1; 2]. *)
Lemma the_simulation_well_shaped : well_shaped the_simulation [3; 2] [1; 2].
Proof.
  split.
  - reflexivity.
  - intros x Hx. exact Hx.
  - intros x Hx. exact Hx.
  - intros x Hx. simpl. rewrite Hx. reflexivity.
  - discriminate.
Defined.

(** [initialize] on the small engine, with room for five rounds. *)
Lemma initialize_returns_witness :
  (1 <= 5)%Z /\
  exists (k : nat) (m' : machine Z string (tensor Z)),
    initialize 5 1%Z the_machine = (Returned (Z.of_nat k), m') /\
    (Z.of_nat k <= 5 - 1)%Z /\
    f (self m') = init_field the_simulation (S k) /\
    (forall j, j < k -> criterion_fails the_simulation 1%Z j) /\
    (criterion_holds the_simulation 1%Z k \/
     (Z.of_nat k = 5 - 1)%Z /\ criterion_fails the_simulation 1%Z k).
Proof.
  split; [lia|].
  destruct (initialize_returns 5 1%Z the_machine [3; 2] [1; 2])
    as (k & m' & Hrun & Hk & Hf & _ & Hfail & Hlast);
    [exact Z_num_laws | lia | exact the_simulation_well_shaped |].
  exists k, m'. repeat split; assumption.
Defined.

(** C5 as it was claimed fails at the first iteration. With the tolerance 4
    the small engine returns 0 of 5, because the pressure of iteration 0, 3 at
    both sites, is within 4 of the number 0; the pressure of the field the
    iteration started from is 18 and 21. *)
Lemma initialize_first_against_zero :
  fst (initialize 5 4%Z the_machine) = Returned 0%Z /\
  (0 <> 5 - 1)%Z /\
  ~ criterion_against_previous the_simulation 4%Z 0.
Proof.
  split; [reflexivity|]. split; [lia|].
  intros H. specialize (H [0; 0]).
  assert (in_range [0; 0] (shape (init_pressure the_simulation 0))) as Hin.
  { repeat constructor. }
  specialize (H Hin). vm_compute in H. discriminate H.
Qed.

Example pressures_of_the_first_round :
  elements (pressure_of the_simulation (f the_simulation)) = [18; 21]%Z /\
  elements (init_pressure the_simulation 0) = [3; 3]%Z.
Proof. split; reflexivity. Qed.

Example initialize_count : fst (initialize 5 1%Z the_machine) = Returned 1%Z.
Proof. reflexivity. Qed.

(** The initialization collision has been applied at the wall site too. *)
Example initialize_elements :
  elements (f (self (snd (initialize 5 1%Z the_machine)))) = [1; 1; 1; 1; 1; 1]%Z.
Proof. reflexivity. Qed.

(** A checkpoint written by the small engine after a step and read back by
    it. *)
Lemma checkpoint_round_trip_witness :
  same (f (self (snd (load_checkpoint "f.pkl"
          (snd (save_checkpoint "f.pkl" (stepped 1 the_machine)))))))
       (f (self (stepped 1 the_machine))).
Proof.
  apply (checkpoint_round_trip "f.pkl" (stepped 1 the_machine)
           (snd (save_checkpoint "f.pkl" (stepped 1 the_machine)))).
  - intros t. exists t. split; [reflexivity|]. split; [reflexivity|].
    intros ix _. reflexivity.
  - reflexivity.
Defined.

(** The mask the constructor builds for the small flow: the wall's mask; the
    mask of the other boundary, true everywhere, has not entered. *)
Lemma init_mask_witness :
  exists s : Simulation Z string,
    Simulation__init__ the_flow the_lattice the_collision the_streaming = Returned s /\
    shape (no_collision_mask s) = [2] /\
    forall site, in_range site [2] ->
      item (no_collision_mask s) site = or_of_masks [wall; outlet] site.
Proof.
  destruct (init_mask (Reporter:=string) (Transform:=unit) (Blob:=tensor Z) the_flow the_lattice
              the_collision the_streaming the_grid_array the_pressure the_velocity)
    as (s & Hs & Hshape & Hor & _).
  - reflexivity.
  - reflexivity.
  - reflexivity.
  - reflexivity.
  - intros t. split; [reflexivity|]. intros ix _. reflexivity.
  - intros b Hb Hbb.
    apply elem_of_cons in Hb as [->|Hb]; [by exists wall_mask|].
    apply elem_of_cons in Hb as [->|Hb]; [discriminate Hbb|].
    by apply elem_of_nil in Hb.
  - exists s. split; [exact Hs|]. split; [exact Hshape|exact Hor].
Defined.

Example init_mask_elements :
  (fun o => match o with
            | Returned s => Some (elements (no_collision_mask s))
            | Raised _ => None
            end)
    (Simulation__init__ (Reporter:=string) the_flow the_lattice the_collision the_streaming)
  = Some [true; false].
Proof. reflexivity. Qed.

(** The calls of one step of the small engine. *)
Lemma step_body_calls_witness :
  exists w,
    torch_where wall_mask (the_streaming (f the_simulation))
      (the_collision (the_streaming (f the_simulation))) = Returned w /\
    i (self (snd (step_body the_machine))) = 1%Z /\
    calls (world (snd (step_body the_machine)))
    = [CallStreaming (f the_simulation);
       CallCollision (the_streaming (f the_simulation))]
      ++ boundary_calls [wall; outlet] w
      ++ reporter_calls ["energy"; "error"] 1 (f (self (snd (step_body the_machine)))).
Proof.
  destruct (step_body_calls the_machine (snd (step_body the_machine)))
    as (w & Hw & Hi & _ & Hcalls);
    [apply step_body_returned; vm_compute; reflexivity|].
  exists w. split; [exact Hw|]. split; [exact Hi|].
  rewrite Hcalls, Hi. reflexivity.
Defined.

(** *** The further properties, run *)

Lemma the_pickle_faithful : pickle_faithful (V:=Z) (Transform:=unit) (Blob:=tensor Z).
Proof.
  intros t. exists t. split; [reflexivity|]. split; [reflexivity|].
  intros ix _. reflexivity.
Defined.

Lemma init_constructed :
  Simulation__init__ the_flow the_lattice the_collision the_streaming
  = Returned constructed.
Proof.
  unfold constructed.
  destruct (Simulation__init__ the_flow the_lattice the_collision the_streaming)
    as [s|e] eqn:E; [reflexivity|].
  vm_compute in E. discriminate E.
Defined.

(** Three steps of the small engine count to 3. *)
Lemma step_counter_witness :
  i (self (stepped 3 the_machine)) = (i (self the_machine) + Z.max 0 3)%Z.
Proof.
  apply (step_counter 3 the_machine (rate 3 the_machine) (stepped 3 the_machine)).
  apply step_stepped. vm_compute. reflexivity.
Defined.

(** Its two reporters are called in turn, with 1, 1 and then with 2, 2. *)
Lemma step_reports_witness :
  exists l, calls (world (stepped 2 the_machine)) = calls (world the_machine) ++ l /\
    reports l = [("energy", 1, 1); ("error", 1, 1); ("energy", 2, 2); ("error", 2, 2)]%Z.
Proof.
  apply (step_reports 2 the_machine (rate 2 the_machine) (stepped 2 the_machine)).
  apply step_stepped. vm_compute. reflexivity.
Defined.


(** A mask of shape [3] against a field of shape [3; 2]: the first round
    fails, with the counter at 1 and the timer read once. *)
Lemma step_failure_witness :
  fst (step 5 broken_machine) = Raised shape_error /\
  i (self (snd (step 5 broken_machine))) = 1%Z /\
  ticks (world (snd (step 5 broken_machine))) = 1.
Proof.
  rewrite (step_failure 5 0 broken_machine broken_machine shape_error);
    [|lia|reflexivity|reflexivity].
  split; [reflexivity|]. split; reflexivity.
Defined.

(** The rate of one step of the small engine is positive. *)
Lemma step_rate_witness : (0 < rate 1 the_machine)%Q.
Proof.
  destruct (step_rate 1 the_machine (rate 1 the_machine) (stepped 1 the_machine))
    as (_ & _ & _ & Hpos); [apply step_stepped; vm_compute; reflexivity|].
  apply Hpos; [lia | vm_compute; discriminate | vm_compute; reflexivity].
Defined.

Example step_rate_value : rate 1 the_machine = (2 # 1000000)%Q.
Proof. vm_compute. reflexivity. Qed.

(** Without a wall the collision phase is the collision operator. *)
Lemma collide_phase_constant_mask_witness :
  exists m',
    collide_phase unmasked_machine = (Returned tt, m') /\
    same (f (self m')) (the_collision (f the_simulation)).
Proof.
  destruct (collide_phase_constant_mask unmasked_machine 3 [2] false)
    as (m' & Hrun & _ & Hsame); [reflexivity..| |].
  - intros site _. reflexivity.
  - exists m'. split; [exact Hrun|exact Hsame].
Defined.

(** There is no file yet: loading raises and the field stays. After a save
    the load returns, and the field is what the file unpickles to. *)
Lemma load_checkpoint_outcome_witness :
  f (self (snd (load_checkpoint "f.pkl" the_machine))) = f (self the_machine) /\
  exists b,
    files (world (snd (save_checkpoint "f.pkl" the_machine))) !! "f.pkl" = Some b /\
    pickle_loads b
    = Returned (f (self (snd (load_checkpoint "f.pkl"
                               (snd (save_checkpoint "f.pkl" the_machine)))))).
Proof.
  split.
  - destruct (load_checkpoint_outcome "f.pkl" the_machine
                (Raised (FileNotFoundError "f.pkl"))
                (snd (load_checkpoint "f.pkl" the_machine))) as (_ & _ & Hf).
    + reflexivity.
    + exact Hf.
  - destruct (load_checkpoint_outcome "f.pkl"
                (snd (save_checkpoint "f.pkl" the_machine))
                (Returned tt)
                (snd (load_checkpoint "f.pkl"
                        (snd (save_checkpoint "f.pkl" the_machine)))))
      as (_ & _ & Hb).
    + reflexivity.
    + exact Hb.
Defined.

(** Saved at counter 0 and loaded after two steps: the counter stays at 2. *)
Lemma checkpoint_keeps_counter_witness :
  same (f (self (snd (load_checkpoint "f.pkl"
          (stepped 2 (snd (save_checkpoint "f.pkl" the_machine)))))))
       (f (self the_machine)) /\
  i (self (snd (load_checkpoint "f.pkl"
       (stepped 2 (snd (save_checkpoint "f.pkl" the_machine))))))
  = (i (self the_machine) + Z.max 0 2)%Z.
Proof.
  destruct (checkpoint_keeps_counter "f.pkl" 2 the_machine
              (rate 2 (snd (save_checkpoint "f.pkl" the_machine)))
              (stepped 2 (snd (save_checkpoint "f.pkl" the_machine))))
    as (_ & Hsame & Hi).
  - exact the_pickle_faithful.
  - apply step_stepped. vm_compute. reflexivity.
  - split; [exact Hsame|exact Hi].
Defined.

Lemma initialize_nonpositive_witness :
  fst (initialize (-3) 1%Z the_machine)
  = Raised (UnboundLocalError "local variable 'i' referenced before assignment").
Proof.
  apply (initialize_nonpositive (-3) 1%Z the_machine). lia.
Defined.

Lemma initialize_empty_grid_witness :
  exists msg, fst (initialize 5 1%Z empty_machine) = Raised (RuntimeError msg).
Proof.
  destruct (initialize_empty_grid 5 1%Z empty_machine [1; 0]) as (msg & Hraise & _);
    [lia|reflexivity|reflexivity|].
  exists msg. exact Hraise.
Defined.

Lemma initialize_one_round_witness :
  fst (initialize 1 1%Z the_machine) = Returned 0%Z.
Proof.
  apply (initialize_one_round 1%Z the_machine [3; 2] [1; 2]).
  exact the_simulation_well_shaped.
Defined.

(** The small engine and one with another collision, mask, counter, list of
    reporters and timer. *)
Lemma initialize_reads_witness :
  fst (initialize 5 1%Z the_machine) = fst (initialize 5 1%Z other_machine).
Proof.
  apply (initialize_reads 5 1%Z the_machine other_machine); reflexivity.
Defined.

(** A flow without grid arrays: the constructor raises [IndexError]. *)
Lemma init_raises_witness :
  grid no_grid_flow = [] /\
  Simulation__init__ (Reporter:=string) no_grid_flow the_lattice
    the_collision the_streaming
  = Raised (IndexError "list index out of range").
Proof.
  split; [reflexivity|].
  destruct (init_raises (Reporter:=string) no_grid_flow the_lattice
              the_collision the_streaming (IndexError "list index out of range"))
    as [[_ _]|(g0 & Hg0 & _)]; [reflexivity|reflexivity|discriminate Hg0].
Defined.

(** The constructed engine, stepped four times. *)
Lemma fresh_engine_steps_witness :
  i constructed = 0%Z /\ reporters constructed = [] /\
  i (self (stepped 4 {| self := constructed; world := the_world running_clock |})) = 4%Z.
Proof.
  destruct (fresh_engine_steps the_flow the_lattice the_collision the_streaming
              constructed (the_world running_clock) 4
              (rate 4 {| self := constructed; world := the_world running_clock |})
              (stepped 4 {| self := constructed; world := the_world running_clock |}))
    as ((Hi & Hr & _) & Hcount & _).
  - exact init_constructed.
  - apply step_stepped. vm_compute. reflexivity.
  - split; [exact Hi|]. split; [exact Hr|exact Hcount].
Defined.

Example main_default_without_cuda :
  main false the_torch_device true 0 "single" false
  = (Failed Abort,
     {| obj_device := None; obj_dtype := None; obj_lov := None |},
     ["CUDA not found."]).
Proof. reflexivity. Qed.

Example main_cpu_device :
  snd (fst (main false the_torch_device false 3 "double" true))
  = {| obj_device := Some (Device "cpu"); obj_dtype := Some torch_double;
       obj_lov := Some true |}.
Proof. vm_compute. reflexivity. Qed.

Example main_cuda_device :
  main true the_torch_device true 1 "half" false
  = (Done tt,
     {| obj_device := Some (Device "cuda:1"); obj_dtype := Some torch_half;
        obj_lov := Some false |},
     []).
Proof. vm_compute. reflexivity. Qed.

(** [-i -1] with CUDA at hand: the error of [torch.device] ends [main]. *)
Lemma main_outcome_witness :
  main true the_torch_device true (-1) "single" false
  = (Failed (TorchError (RuntimeError "Device index must not be negative")),
     {| obj_device := None; obj_dtype := None; obj_lov := None |},
     []).
Proof.
  pose proof (main_outcome true the_torch_device true (-1) "single" false)
    as (_ & _ & Hobj & _ & Hraise & _).
  destruct (Hraise (fun _ => eq_refl)
              (RuntimeError "Device index must not be negative") eq_refl)
    as [Hr Hout].
  assert (fst (fst (main true the_torch_device true (-1) "single" false))
          <> Done tt) as Hne by (rewrite Hr; discriminate).
  specialize (Hobj Hne).
  destruct (main true the_torch_device true (-1) "single" false) as [[r obj] out].
  simpl in *. by subst.
Defined.

(** [benchmark] on the small engine, for three steps in double precision. *)
Lemma benchmark_returns_witness :
  fst (fst (benchmark the_context 3 16 false (the_world running_clock))) = Returned 0%Z /\
  snd (fst (benchmark the_context 3 16 false (the_world running_clock)))
  = ["Finished 3 steps in 64 bit precision. MLUPS:       0.00"].
Proof.
  assert (returned (fst (fst (benchmark the_context 3 16 false
                                (the_world running_clock)))) = true) as Hret
    by (vm_compute; reflexivity).
  destruct (benchmark the_context 3 16 false (the_world running_clock))
    as [[[code|e] out] w'] eqn:E; [|discriminate Hret].
  destruct (benchmark_returns the_context 3 16 false (the_world running_clock)
              w' code out E) as (-> & (mlups & ->) & _).
  split; [reflexivity|]. vm_compute. reflexivity.
Defined.


End Run.
